(** * BART (Balloon Analogue Risk Task): the trial / risk state machine of main.py

    A shallow embedding of the Streamlit script [main.py]: the session dictionary
    [st.session_state] becomes a record, the module [random] becomes an explicit
    generator state threaded through the handlers, Python exceptions become an
    outcome that keeps the (already mutated) store, and the button callbacks
    become functions on that store.  Python integers are [Z]; Python floats are
    the kernel's binary64 numbers. *)

From Stdlib Require Import ZArith List String Ascii Bool Lia.
From Stdlib Require Import PrimFloat Uint63 FloatOps SpecFloat.
Import ListNotations.

#[local] Open Scope Z_scope.

(** ** Configuration and constants *)

Definition POINTS_PER_PUMP : Z := 5.
Definition TOTAL_TRIALS : Z := 7.

(** The keys of [MAX_PUMPS_MAP]. *)
Inductive Color : Set := Yellow | Orange | Blue.

Definition MAX_PUMPS_MAP (c : Color) : Z :=
  match c with
  | Yellow => 8
  | Orange => 16
  | Blue => 64
  end.

(** [list(MAX_PUMPS_MAP.keys())]: insertion order of the dictionary literal. *)
Definition colors : list Color := [Yellow; Orange; Blue].

Definition Color_eqb (a b : Color) : bool :=
  match a, b with
  | Yellow, Yellow | Orange, Orange | Blue, Blue => true
  | _, _ => false
  end.

Definition DEPARTMENTS : list string :=
  [ "Select Department"; "Accounting"; "Finance (BAF)";
    "Management Studies (MGT)"; "Entrepreneurship"; "Marketing";
    "Economics"; "Other" ]%string.

(** ** Python values *)

(** [l[i]] on a Python list: negative indices count from the end, anything
    outside [-len, len) raises IndexError (here [None]). *)
Definition py_index {A : Type} (l : list A) (i : Z) : option A :=
  let n := Z.of_nat (List.length l) in
  if (0 <=? i) && (i <? n) then nth_error l (Z.to_nat i)
  else if (- n <=? i) && (i <? 0) then nth_error l (Z.to_nat (i + n))
  else None.

(** [float(z)] for the integers the script divides by.  The conversion goes
    through a 63-bit integer: it is exact for [0 <= z < 2^53] and wraps from
    [2^63] on, where Python divides the unbounded integer.  Every denominator
    formed by [handle_pump] in a session lies between 2 and 64
    ([pump_denominator_range]), where the conversion is exact
    ([float_of_Z_exact]). *)
Definition float_of_Z (z : Z) : float := PrimFloat.of_uint63 (Uint63.of_Z z).

(** ** The module [random] *)

(** The generator: the sequence of values [random.random()] is going to return
    (each in [0,1)), and how many have been consumed. *)
Record RNG : Type := mkRNG { floats : nat -> float; cursor : nat }.

(** [random.random()] *)
Definition random (g : RNG) : float * RNG :=
  (floats g (cursor g), mkRNG (floats g) (S (cursor g))).

(** [floor(x)] for [0 <= x < n], as an index: the number of [j] in [1..n-1]
    with [j <= x]. *)
Definition floor_index (x : float) (n : nat) : nat :=
  List.length (filter (fun j => PrimFloat.leb (float_of_Z (Z.of_nat j)) x)
                 (seq 1 (n - 1))).

(** [random.choices(population, k=k)] without weights:
    [[population[floor(random() * n)] for i in range(k)]]. *)
Fixpoint random_choices {A : Type} (population : list A) (d : A) (k : nat)
         (g : RNG) : list A * RNG :=
  match k with
  | O => ([], g)
  | S k' =>
      let (u, g1) := random g in
      let n := List.length population in
      let x := nth (floor_index (PrimFloat.mul u (float_of_Z (Z.of_nat n))) n)
                   population d in
      let (rest, g2) := random_choices population d k' g1 in
      (x :: rest, g2)
  end.

(** ** The session dictionary *)

(** The values assigned to [st.session_state['page']]. *)
Inductive Page : Set :=
  | p_start | p_game | p_explosion | p_game_over_explosion | p_end.

Definition Page_eqb (a b : Page) : bool :=
  match a, b with
  | p_start, p_start | p_game, p_game | p_explosion, p_explosion
  | p_game_over_explosion, p_game_over_explosion | p_end, p_end => true
  | _, _ => false
  end.

(** One dictionary appended to [trial_data] by [next_trial]. *)
Module TrialRow.
Record t : Type := mk {
  participant_name : string;
  department : string;
  game_id : string;
  trial_number : Z;
  balloon_color : Color;
  pumps : Z;
  exploded : Z;
  money_earned : Z;
  total_money_after_trial : Z
}.
End TrialRow.

(** [st.session_state].  The keys written by the initialization block are
    always present; the four keys written later are optional. *)
Record SessionState : Type := mkSession {
  page : Page;
  trial_data : list TrialRow.t;
  total_score : Z;
  current_trial : Z;
  temp_score : Z;
  pumps : Z;
  balloon_colors_sequence : list Color;
  max_pumps_this_trial : Z;
  participant_name : option string;
  department : option string;
  game_id : option string;
  balloon_size : option Z
}.

Definition set_page (v : Page) (s : SessionState) : SessionState :=
  mkSession v (trial_data s) (total_score s) (current_trial s) (temp_score s)
    (pumps s) (balloon_colors_sequence s) (max_pumps_this_trial s)
    (participant_name s) (department s) (game_id s) (balloon_size s).

Definition set_trial_data (v : list TrialRow.t) (s : SessionState) : SessionState :=
  mkSession (page s) v (total_score s) (current_trial s) (temp_score s)
    (pumps s) (balloon_colors_sequence s) (max_pumps_this_trial s)
    (participant_name s) (department s) (game_id s) (balloon_size s).

Definition set_total_score (v : Z) (s : SessionState) : SessionState :=
  mkSession (page s) (trial_data s) v (current_trial s) (temp_score s)
    (pumps s) (balloon_colors_sequence s) (max_pumps_this_trial s)
    (participant_name s) (department s) (game_id s) (balloon_size s).

Definition set_current_trial (v : Z) (s : SessionState) : SessionState :=
  mkSession (page s) (trial_data s) (total_score s) v (temp_score s)
    (pumps s) (balloon_colors_sequence s) (max_pumps_this_trial s)
    (participant_name s) (department s) (game_id s) (balloon_size s).

Definition set_temp_score (v : Z) (s : SessionState) : SessionState :=
  mkSession (page s) (trial_data s) (total_score s) (current_trial s) v
    (pumps s) (balloon_colors_sequence s) (max_pumps_this_trial s)
    (participant_name s) (department s) (game_id s) (balloon_size s).

Definition set_pumps (v : Z) (s : SessionState) : SessionState :=
  mkSession (page s) (trial_data s) (total_score s) (current_trial s)
    (temp_score s) v (balloon_colors_sequence s) (max_pumps_this_trial s)
    (participant_name s) (department s) (game_id s) (balloon_size s).

Definition set_max_pumps_this_trial (v : Z) (s : SessionState) : SessionState :=
  mkSession (page s) (trial_data s) (total_score s) (current_trial s)
    (temp_score s) (pumps s) (balloon_colors_sequence s) v
    (participant_name s) (department s) (game_id s) (balloon_size s).

Definition set_identity (n d g : string) (s : SessionState) : SessionState :=
  mkSession (page s) (trial_data s) (total_score s) (current_trial s)
    (temp_score s) (pumps s) (balloon_colors_sequence s)
    (max_pumps_this_trial s) (Some n) (Some d) (Some g) (balloon_size s).

Definition set_balloon_size (v : Z) (s : SessionState) : SessionState :=
  mkSession (page s) (trial_data s) (total_score s) (current_trial s)
    (temp_score s) (pumps s) (balloon_colors_sequence s)
    (max_pumps_this_trial s) (participant_name s) (department s) (game_id s)
    (Some v).

(** The process: the session dictionary and the generator. *)
Record World : Type := mkWorld { session : SessionState; rng : RNG }.

Definition upd (f : SessionState -> SessionState) (w : World) : World :=
  mkWorld (f (session w)) (rng w).

(** ** Exceptions *)

Inductive Exn : Set :=
  | IndexError
  | KeyError (key : string).

(** A call returns, raises, or asks Streamlit to run the script again
    ([st.rerun()] unwinds the script like an exception).  The store is global:
    what was written before the exit stays written. *)
Inductive Outcome : Type :=
  | Ok (w : World)
  | Raise (e : Exn) (w : World)
  | Rerun (w : World).

Definition bind (o : Outcome) (k : World -> Outcome) : Outcome :=
  match o with
  | Ok w => k w
  | Raise e w => Raise e w
  | Rerun w => Rerun w
  end.

(** ** Session state initialization *)

(** The block of [if key not in st.session_state] at the top of the script,
    on an empty dictionary. *)
Definition initialize (g : RNG) : World :=
  let (sequence, g') := random_choices colors Yellow (Z.to_nat TOTAL_TRIALS) g in
  mkWorld (mkSession p_start [] 0 1 0 0 sequence 0 None None None None) g'.

(** ** Helper functions *)

Definition setup_new_trial (w : World) : Outcome :=
  let s := session w in
  if current_trial s <=? TOTAL_TRIALS then
    match py_index (balloon_colors_sequence s) (current_trial s - 1) with
    | None => Raise IndexError w
    | Some current_color =>
        Ok (upd (set_max_pumps_this_trial (MAX_PUMPS_MAP current_color)) w)
    end
  else Ok w.

Definition next_trial (w : World) : Outcome :=
  let s := session w in
  match py_index (balloon_colors_sequence s) (current_trial s - 1) with
  | None => Raise IndexError w
  | Some current_color =>
      let is_exploded :=
        if Page_eqb (page s) p_explosion then 1
        else if Page_eqb (page s) p_game_over_explosion then 1
        else 0 in
      match participant_name s with
      | None => Raise (KeyError "participant_name") w
      | Some name =>
      match department s with
      | None => Raise (KeyError "department") w
      | Some dept =>
      match game_id s with
      | None => Raise (KeyError "game_id") w
      | Some gid =>
          let row :=
            TrialRow.mk name dept gid (current_trial s) current_color (pumps s)
              is_exploded
              (if is_exploded =? 0 then temp_score s else 0)
              (total_score s) in
          let w1 := upd (fun s => set_trial_data (trial_data s ++ [row]) s) w in
          let w2 := upd (fun s => set_current_trial (current_trial s + 1) s) w1 in
          let w3 := upd (set_temp_score 0) w2 in
          let w4 := upd (set_pumps 0) w3 in
          if current_trial (session w4) >? TOTAL_TRIALS then
            Ok (upd (set_page p_end) w4)
          else
            bind (setup_new_trial w4) (fun w5 => Ok (upd (set_page p_game) w5))
      end end end
  end.

(** [1 / (max_pumps - current_pumps + 1)] *)
Definition prob_explosion (max_pumps current_pumps : Z) : float :=
  PrimFloat.div 1 (float_of_Z (max_pumps - current_pumps + 1)).

Definition handle_pump (w : World) : Outcome :=
  bind (if max_pumps_this_trial (session w) =? 0 then setup_new_trial w
        else Ok w)
    (fun w1 =>
       let max_pumps := max_pumps_this_trial (session w1) in
       let w2 := upd (fun s => set_pumps (pumps s + 1) s) w1 in
       let current_pumps := pumps (session w2) in
       let w3 :=
         upd (fun s => set_temp_score (temp_score s + POINTS_PER_PUMP) s) w2 in
       let w4 :=
         if current_pumps >=? max_pumps then upd (set_page p_explosion) w3
         else
           let (r, g) := random (rng w3) in
           let w3' := mkWorld (session w3) g in
           if PrimFloat.ltb r (prob_explosion max_pumps current_pumps)
           then upd (set_page p_explosion) w3'
           else w3' in
       Ok (upd (fun s => set_balloon_size (150 + pumps s * 5) s) w4)).

Definition handle_collect (w : World) : Outcome :=
  let w1 := upd (fun s => set_total_score (total_score s + temp_score s) s) w in
  next_trial w1.

(** [reset_game] deletes every key; the run that follows finds the dictionary
    empty and initializes it again, drawing a new colour sequence.  The
    deletion loop and the guarded initialization are spelled out key by key
    in [delete_all_keys] and [initialization_block];
    [reset_game_deletes_then_initializes] shows that they compose to this
    function. *)
Definition reset_game (w : World) : World := initialize (rng w).

(** ** Strings of the identity form *)

(** [str.isspace] on the code points below 256. *)
Definition py_isspace (c : ascii) : bool :=
  let n := N_of_ascii c in
  (((9 <=? n) && (n <=? 13)) || ((28 <=? n) && (n <=? 32))
   || (n =? 133) || (n =? 160))%N.

Fixpoint lstrip (s : string) : string :=
  match s with
  | EmptyString => EmptyString
  | String c s' => if py_isspace c then lstrip s' else s
  end.

Fixpoint rstrip (s : string) : string :=
  match s with
  | EmptyString => EmptyString
  | String c s' =>
      match rstrip s' with
      | EmptyString => if py_isspace c then EmptyString else String c EmptyString
      | r => String c r
      end
  end.

(** [s.strip()] *)
Definition strip (s : string) : string := rstrip (lstrip s).

(** [s.replace(old, new)] for one-character [old] and [new]. *)
Fixpoint replace (old new : ascii) (s : string) : string :=
  match s with
  | EmptyString => EmptyString
  | String c s' =>
      String (if Ascii.eqb c old then new else c) (replace old new s')
  end.

(** [game_id.strip().replace(' ', '_')] *)
Definition sanitize_game_id (game_id : string) : string :=
  replace " "%char "_"%char (strip game_id).

(** ** Page functions (their effect on the store) *)

(** The body of [if submitted:] in [start_page]. *)
Definition start_page_submitted (name dept gid : string) (w : World) : Outcome :=
  if (name =? "")%string || (dept =? "Select Department")%string
     || (gid =? "")%string
  then Ok w
  else
    let w1 := upd (set_identity name dept (sanitize_game_id gid)) w in
    bind (setup_new_trial w1) (fun w2 => Rerun (upd (set_page p_game) w2)).

Definition game_page (w : World) : Outcome :=
  let s := session w in
  match py_index (balloon_colors_sequence s) (current_trial s - 1) with
  | None => Raise IndexError w
  | Some current_color =>
      if Page_eqb (page s) p_explosion
      then Rerun (upd (set_page p_game_over_explosion) w)
      else Ok w
  end.

Definition explosion_page (w : World) : Outcome :=
  let s := session w in
  match py_index (balloon_colors_sequence s) (current_trial s - 1) with
  | None => Raise IndexError w
  | Some current_color => Ok w
  end.

(** [csv_filename] of [end_page]. *)
Definition csv_filename (gid : string) : string :=
  ("BART_" ++ gid ++ ".csv")%string.

(** [end_page] reads [total_score], [trial_data] and [game_id]. *)
Definition end_page (w : World) : Outcome :=
  match game_id (session w) with
  | None => Raise (KeyError "game_id") w
  | Some gid => Ok w
  end.

(** ** Main application flow *)

(** [main()] with no widget activated. *)
Definition main (w : World) : Outcome :=
  match page (session w) with
  | p_start => Ok w
  | p_game => game_page w
  | p_explosion => explosion_page w
  | p_game_over_explosion => explosion_page w
  | p_end => end_page w
  end.

(** Streamlit runs the script again for as long as it asks to. *)
Fixpoint script (fuel : nat) (w : World) : Outcome :=
  match main w with
  | Rerun w' =>
      match fuel with
      | O => Rerun w'
      | S fuel' => script fuel' w'
      end
  | o => o
  end.

(** ** The participant's actions *)

Inductive Event : Type :=
  | Submit (name dept gid : string)
  | ClickPump
  | ClickCollect
  | ClickContinue.

(** The widgets drawn by the page that was rendered last; the collect button
    is drawn with [disabled=(pumps == 0)]. *)
Definition offered (ev : Event) (s : SessionState) : bool :=
  match ev, page s with
  | Submit _ dept _, p_start => existsb (String.eqb dept) DEPARTMENTS
  | ClickPump, p_game => true
  | ClickCollect, p_game => negb (pumps s =? 0)
  | ClickContinue, p_explosion => true
  | ClickContinue, p_game_over_explosion => true
  | _, _ => false
  end.

Definition handler (ev : Event) (w : World) : Outcome :=
  match ev with
  | Submit name dept gid => start_page_submitted name dept gid w
  | ClickPump => handle_pump w
  | ClickCollect => handle_collect w
  | ClickContinue => next_trial w
  end.

(** One interaction: the handler of the activated widget runs, then the
    script is run to render the page. *)
Definition interact (ev : Event) (w : World) : Outcome :=
  match handler ev w with
  | Ok w1 => script 2 w1
  | Rerun w1 => script 2 w1
  | Raise e w1 => Raise e w1
  end.

(** The worlds a session goes through: from the first run of the script, by
    actions on widgets that are on the screen and whose handling returns. *)
Inductive reachable : World -> Prop :=
  | reach_init (g : RNG) : reachable (initialize g)
  | reach_step (w w' : World) (ev : Event) :
      reachable w ->
      offered ev (session w) = true ->
      interact ev w = Ok w' ->
      reachable w'.

(** Executable form: play a list of actions from a world. *)
Fixpoint play (evs : list Event) (w : World) : option World :=
  match evs with
  | [] => Some w
  | ev :: evs' =>
      if offered ev (session w) then
        match interact ev w with
        | Ok w' => play evs' w'
        | _ => None
        end
      else None
  end.

(** ** The export and its bookkeeping *)

(** Sum of the [money_earned] column. *)
Definition sum_money (rows : list TrialRow.t) : Z :=
  fold_right (fun r acc => TrialRow.money_earned r + acc) 0 rows.

(** Rows numbered [k], [k+1], ... whose [total_money_after_trial] is the
    running sum of [money_earned] started at [acc]. *)
Fixpoint log_wf (k acc : Z) (rows : list TrialRow.t) : Prop :=
  match rows with
  | [] => True
  | r :: rows' =>
      TrialRow.trial_number r = k /\
      TrialRow.total_money_after_trial r = acc + TrialRow.money_earned r /\
      log_wf (k + 1) (acc + TrialRow.money_earned r) rows'
  end.

(** What every appended row satisfies, relative to the colour sequence. *)
Definition row_ok (sq : list Color) (r : TrialRow.t) : Prop :=
  py_index sq (TrialRow.trial_number r - 1) = Some (TrialRow.balloon_color r) /\
  ((TrialRow.exploded r = 1 /\ TrialRow.money_earned r = 0 /\
    1 <= TrialRow.pumps r <= MAX_PUMPS_MAP (TrialRow.balloon_color r))
   \/
   (TrialRow.exploded r = 0 /\
    TrialRow.money_earned r = TrialRow.pumps r * POINTS_PER_PUMP /\
    1 <= TrialRow.pumps r < MAX_PUMPS_MAP (TrialRow.balloon_color r))).

(** A trial is on: its number is in range, the ceiling in the store is the
    ceiling of its colour, and the temporary score follows the pumps. *)
Definition trial_on (s : SessionState) : Prop :=
  1 <= current_trial s <= TOTAL_TRIALS /\
  (exists c, py_index (balloon_colors_sequence s) (current_trial s - 1) = Some c
             /\ max_pumps_this_trial s = MAX_PUMPS_MAP c) /\
  temp_score s = pumps s * POINTS_PER_PUMP /\
  participant_name s <> None /\ department s <> None /\ game_id s <> None.

Definition page_inv (s : SessionState) : Prop :=
  match page s with
  | p_start => current_trial s = 1 /\ pumps s = 0 /\ temp_score s = 0
  | p_game => trial_on s /\ 0 <= pumps s < max_pumps_this_trial s
  | p_explosion => trial_on s /\ 1 <= pumps s <= max_pumps_this_trial s
  | p_game_over_explosion => False
  | p_end => current_trial s = TOTAL_TRIALS + 1 /\ game_id s <> None
  end.

Record Inv (s : SessionState) : Prop := mkInv {
  inv_seq_len : List.length (balloon_colors_sequence s) = Z.to_nat TOTAL_TRIALS;
  inv_log_len : Z.of_nat (List.length (trial_data s)) = current_trial s - 1;
  inv_log_wf : log_wf 1 0 (trial_data s);
  inv_total : total_score s = sum_money (trial_data s);
  inv_rows : Forall (row_ok (balloon_colors_sequence s)) (trial_data s);
  inv_page : page_inv s
}.

(** ** The risk curve, as specified *)

(** [explosion_probability(tier, pump_count)] as the specification words it:
    [1 / (max_pumps(tier) - pump_count + 1)], in binary64. *)
Definition explosion_probability (tier : Color) (pump_count : Z) : float :=
  PrimFloat.div 1 (float_of_Z (MAX_PUMPS_MAP tier - pump_count + 1)).

(** [f] is within half a unit in the last place of the rational [1/n]:
    with [f = m * 2^e], [|f - 1/n| <= 2^(e-1)], cleared of denominators. *)
Definition nearest_to_inverse (f : float) (n : Z) : bool :=
  match Prim2SF f with
  | S754_finite false m e =>
      (e <? 0) && (Z.abs (2 * Z.pos m * n - 2 ^ (1 - e)) <=? n)
  | _ => false
  end.

(** The float [f] is the integer [z], exactly. *)
Definition represents (f : float) (z : Z) : bool :=
  match Prim2SF f with
  | S754_finite false m e =>
      if 0 <=? e then Z.pos m * 2 ^ e =? z else Z.pos m =? z * 2 ^ (- e)
  | _ => false
  end.

(** [f 0 && f 1 && ... && f (n-1)] *)
Fixpoint all_upto (n : nat) (f : Z -> bool) : bool :=
  match n with
  | O => true
  | S n' => f (Z.of_nat n') && all_upto n' f
  end.

(** ** What finalizing a trial does *)

(** What finalizing a trial does to the store, whoever asked for it. *)
Definition finalized (s s' : SessionState) (row : TrialRow.t) : Prop :=
  balloon_colors_sequence s' = balloon_colors_sequence s /\
  trial_data s' = trial_data s ++ [row] /\
  current_trial s' = current_trial s + 1 /\
  pumps s' = 0 /\ temp_score s' = 0 /\
  page s' = (if current_trial s + 1 >? TOTAL_TRIALS then p_end else p_game) /\
  TrialRow.trial_number row = current_trial s /\
  py_index (balloon_colors_sequence s) (current_trial s - 1)
    = Some (TrialRow.balloon_color row) /\
  TrialRow.pumps row = pumps s /\
  TrialRow.total_money_after_trial row = total_score s'.

(** ** The game identifier *)

(** Some character of [s] is whitespace. *)
Definition has_whitespace (s : string) : bool :=
  existsb py_isspace (list_ascii_of_string s).

(** An identifier with a tab between two letters. *)
Definition tabbed_id : string :=
  String "a" (String "009" (String "b" EmptyString)).

(** The [k]-th value [random.random()] can return, [k / 2^53]. *)
Definition grid (k : Z) : float :=
  PrimFloat.div (float_of_Z k) (float_of_Z (2 ^ 53)).

(** The colour [random.choices] picks from [colors] on the draw [u]. *)
Definition pick_colour (u : float) : Color :=
  nth (floor_index (PrimFloat.mul u (float_of_Z 3)) 3) colors Yellow.

(** ** Sample sessions *)

(** A draw that selects a given colour. *)
Definition draw_for (c : Color) : float :=
  match c with
  | Yellow => 0%float
  | Orange => 0.5%float
  | Blue => 0.75%float
  end.

(** A generator that returns [u] for the seven colour draws and [v] after. *)
Definition two_phase_rng (u v : float) : RNG :=
  mkRNG (fun n => if (n <? 7)%nat then u else v) 0.

(** The world after a list of actions on a fresh session (the fresh session
    itself when some action is not on the screen). *)
Definition world_after (evs : list Event) (g : RNG) : World :=
  match play evs (initialize g) with
  | Some w => w
  | None => initialize g
  end.

(** A valid identity form. *)
Definition enrol : Event := Submit "Ann" "Economics" "BAF 01".

(** Seven yellow balloons, draws of 0.75 during the trials: trial 1 pumped
    six times and still intact. *)
Definition yellow_at_six : World :=
  world_after (enrol :: repeat ClickPump 6) (two_phase_rng 0.25 0.75).

(** Seven yellow balloons, draws of 0.75: trial 1 pumped to the ceiling and
    acknowledged, trial 2 pumped seven times. *)
Definition yellow_second_at_seven : World :=
  world_after
    (enrol :: repeat ClickPump 8 ++ ClickContinue :: repeat ClickPump 7)
    (two_phase_rng 0.25 0.75).

(** Seven yellow balloons, draws of 0: the first pump bursts the balloon. *)
Definition yellow_burst : World :=
  world_after [enrol; ClickPump] (two_phase_rng 0.25 0).

(** The same session before that pump, on the active-trial page of trial 1. *)
Definition yellow_enrolled : World :=
  world_after [enrol] (two_phase_rng 0.25 0).

(** The same session after the explosion has been acknowledged. *)
Definition yellow_burst_continued : World :=
  world_after [enrol; ClickPump; ClickContinue] (two_phase_rng 0.25 0).

(** A session whose balloons all have colour [c], draws of 0.75 during the
    trials, trial 1 pumped [n] times. *)
Definition pumped (c : Color) (n : nat) : World :=
  world_after (enrol :: repeat ClickPump n) (two_phase_rng (draw_for c) 0.75).

(** [w] is on the active-trial page of a balloon of colour [c], one pump
    before pump count [p]. *)
Definition at_pump_count (c : Color) (p : Z) (w : World) : bool :=
  Page_eqb (page (session w)) p_game
  && (pumps (session w) + 1 =? p)
  && match py_index (balloon_colors_sequence (session w))
             (current_trial (session w) - 1) with
     | Some c' => Color_eqb c' c
     | None => false
     end.

(** Seven blue balloons, each pumped once and collected. *)
Definition blue_session : World :=
  world_after
    (enrol :: List.concat (repeat [ClickPump; ClickCollect] 7))
    (two_phase_rng 0.75 0.75).

(** ** The balloon graphic *)

(** [balloon_ui]: the diameter in pixels, [min(150 + pumps * 5, 350)]. *)
Definition balloon_ui_size (pumps : Z) : Z := Z.min (150 + pumps * 5) 350.

(** ** Views of the store used in the statements *)

(** The three identity keys. *)
Definition identity (s : SessionState)
  : option string * option string * option string :=
  (participant_name s, department s, game_id s).

(** The value [next_trial] computes for the [exploded] column. *)
Definition is_exploded (s : SessionState) : Z :=
  if Page_eqb (page s) p_explosion then 1
  else if Page_eqb (page s) p_game_over_explosion then 1
  else 0.

(** An upper bound on the actions a session can still take. *)
Definition remaining (s : SessionState) : Z :=
  match page s with
  | p_start => 463
  | p_game => (8 - current_trial s) * 66 - pumps s
  | p_explosion => (8 - current_trial s) * 66 - 65
  | p_game_over_explosion => (8 - current_trial s) * 66 - 65
  | p_end => 0
  end.

(** An action other than an identity form that [start_page] refuses. *)
Definition effective (ev : Event) : bool :=
  match ev with
  | Submit name dept gid =>
      negb ((name =? "")%string || (dept =? "Select Department")%string
            || (gid =? "")%string)
  | _ => true
  end.

(** Pumps of the rows that were collected. *)
Definition collected_pumps (rows : list TrialRow.t) : Z :=
  fold_right
    (fun r acc =>
       (if TrialRow.exploded r =? 0 then TrialRow.pumps r else 0) + acc)
    0 rows.

(** Every character of [s] is whitespace. *)
Definition all_whitespace (s : string) : bool :=
  forallb py_isspace (list_ascii_of_string s).

(** [s] begins with a whitespace character. *)
Definition starts_with_space (s : string) : bool :=
  match s with
  | EmptyString => false
  | String c _ => py_isspace c
  end.

(** [s] ends with a whitespace character. *)
Fixpoint ends_with_space (s : string) : bool :=
  match s with
  | EmptyString => false
  | String c EmptyString => py_isspace c
  | String _ s' => ends_with_space s'
  end.

(** The identity form as [start_page] accepts it. *)
Definition form_valid (name dept gid : string) : bool :=
  negb ((name =? "")%string || (dept =? "Select Department")%string
        || (gid =? "")%string).

(** A fresh store, before the identity form. *)
Definition fresh_world : World := initialize (two_phase_rng 0.25 0.75).

(** A fresh store with six blue balloons and a yellow one last, whose trial
    counter was put back to 0. *)
Definition rewound_world : World :=
  upd (set_current_trial 0)
    (initialize (mkRNG (fun n => if (n =? 6)%nat then 0%float else 0.75%float) 0)).

(** Seven blue balloons, trial 1 pumped 45 times and still intact. *)
Definition blue_at_45 : World := pumped Blue 45.

(** ** The session dictionary, key by key *)

(** The keys the script writes in [st.session_state]. *)
Inductive Key : Set :=
  | k_page | k_trial_data | k_total_score | k_current_trial | k_temp_score
  | k_pumps | k_balloon_colors_sequence | k_max_pumps_this_trial
  | k_participant_name | k_department | k_game_id | k_balloon_size.

Definition Key_eqb (a b : Key) : bool :=
  match a, b with
  | k_page, k_page | k_trial_data, k_trial_data
  | k_total_score, k_total_score | k_current_trial, k_current_trial
  | k_temp_score, k_temp_score | k_pumps, k_pumps
  | k_balloon_colors_sequence, k_balloon_colors_sequence
  | k_max_pumps_this_trial, k_max_pumps_this_trial
  | k_participant_name, k_participant_name | k_department, k_department
  | k_game_id, k_game_id | k_balloon_size, k_balloon_size => true
  | _, _ => false
  end.

(** The values stored under them. *)
Inductive Value : Type :=
  | V_page (p : Page)
  | V_rows (rows : list TrialRow.t)
  | V_int (z : Z)
  | V_colors (cs : list Color)
  | V_str (s : string).

(** A Python dictionary: keys in insertion order. *)
Definition Dict : Type := list (Key * Value).

(** [k in d] *)
Definition dict_has (k : Key) (d : Dict) : bool :=
  existsb (fun kv => Key_eqb (fst kv) k) d.

(** [d.get(k)] *)
Definition dict_get (k : Key) (d : Dict) : option Value :=
  option_map snd (find (fun kv => Key_eqb (fst kv) k) d).

(** [d[k] = v] *)
Definition dict_set (k : Key) (v : Value) (d : Dict) : Dict :=
  if dict_has k d
  then map (fun kv => if Key_eqb (fst kv) k then (k, v) else kv) d
  else d ++ [(k, v)].

(** [del d[k]] for a key that is present. *)
Definition dict_del (k : Key) (d : Dict) : Dict :=
  filter (fun kv => negb (Key_eqb (fst kv) k)) d.

(** [list(d.keys())] *)
Definition dict_keys (d : Dict) : list Key := map fst d.

(** The loop of [reset_game]:
    [for key in list(st.session_state.keys()): del st.session_state[key]]. *)
Definition delete_all_keys (d : Dict) : Dict :=
  fold_left (fun d' k => dict_del k d') (dict_keys d) d.

(** [if k not in st.session_state: st.session_state[k] = v] *)
Definition init_default (k : Key) (v : Value) (d : Dict) : Dict :=
  if dict_has k d then d else dict_set k v d.

(** The initialization block at the top of the script, guard by guard, on
    any dictionary. *)
Definition initialization_block (d : Dict) (g : RNG) : Dict * RNG :=
  let d1 := init_default k_page (V_page p_start) d in
  let d2 := init_default k_trial_data (V_rows []) d1 in
  let d3 := init_default k_total_score (V_int 0) d2 in
  let d4 := init_default k_current_trial (V_int 1) d3 in
  let d5 := init_default k_temp_score (V_int 0) d4 in
  let d6 := init_default k_pumps (V_int 0) d5 in
  let (d7, g') :=
    if dict_has k_balloon_colors_sequence d6 then (d6, g)
    else
      let (sequence, g1) :=
        random_choices colors Yellow (Z.to_nat TOTAL_TRIALS) g in
      (dict_set k_balloon_colors_sequence (V_colors sequence) d6, g1) in
  (init_default k_max_pumps_this_trial (V_int 0) d7, g').

(** The dictionary of a store: the eight keys of the initialization block,
    then the keys written later, when they are present. *)
Definition to_dict (s : SessionState) : Dict :=
  [ (k_page, V_page (page s));
    (k_trial_data, V_rows (trial_data s));
    (k_total_score, V_int (total_score s));
    (k_current_trial, V_int (current_trial s));
    (k_temp_score, V_int (temp_score s));
    (k_pumps, V_int (pumps s));
    (k_balloon_colors_sequence, V_colors (balloon_colors_sequence s));
    (k_max_pumps_this_trial, V_int (max_pumps_this_trial s)) ]
  ++ match participant_name s with
     | Some v => [(k_participant_name, V_str v)]
     | None => []
     end
  ++ match department s with
     | Some v => [(k_department, V_str v)]
     | None => []
     end
  ++ match game_id s with
     | Some v => [(k_game_id, V_str v)]
     | None => []
     end
  ++ match balloon_size s with
     | Some v => [(k_balloon_size, V_int v)]
     | None => []
     end.

Definition get_int (k : Key) (d : Dict) : option Z :=
  match dict_get k d with
  | Some (V_int z) => Some z
  | _ => None
  end.

Definition get_str (k : Key) (d : Dict) : option string :=
  match dict_get k d with
  | Some (V_str v) => Some v
  | _ => None
  end.

(** The store a dictionary holds, when the eight keys of the initialization
    block are there. *)
Definition of_dict (d : Dict) : option SessionState :=
  match dict_get k_page d with
  | Some (V_page pg) =>
  match dict_get k_trial_data d with
  | Some (V_rows td) =>
  match get_int k_total_score d with
  | Some ts =>
  match get_int k_current_trial d with
  | Some ct =>
  match get_int k_temp_score d with
  | Some tmp =>
  match get_int k_pumps d with
  | Some pu =>
  match dict_get k_balloon_colors_sequence d with
  | Some (V_colors sq) =>
  match get_int k_max_pumps_this_trial d with
  | Some mx =>
      Some (mkSession pg td ts ct tmp pu sq mx
              (get_str k_participant_name d) (get_str k_department d)
              (get_str k_game_id d) (get_int k_balloon_size d))
  | None => None
  end
  | _ => None
  end
  | None => None
  end
  | None => None
  end
  | None => None
  end
  | None => None
  end
  | _ => None
  end
  | _ => None
  end.

(** * Proofs *)

(** ** Lists, indices, the generator *)

Lemma py_index_in_range {A : Type} (l : list A) (k : Z) :
  1 <= k <= Z.of_nat (List.length l) ->
  exists x, py_index l (k - 1) = Some x.
Proof.
  intros Hk. unfold py_index.
  replace (0 <=? k - 1) with true by (symmetry; apply Z.leb_le; lia).
  replace (k - 1 <? Z.of_nat (List.length l)) with true
    by (symmetry; apply Z.ltb_lt; lia).
  simpl. destruct (nth_error l (Z.to_nat (k - 1))) eqn:E.
  - now exists a.
  - apply nth_error_None in E. lia.
Qed.

Lemma random_choices_length {A : Type} (population : list A) (d : A) (k : nat)
      (g : RNG) :
  List.length (fst (random_choices population d k g)) = k.
Proof.
  revert g. induction k as [|k IH]; intros g; simpl; [reflexivity|].
  specialize (IH (mkRNG (floats g) (S (cursor g)))).
  destruct (random_choices population d k _) as [rest g2]. simpl in *.
  now rewrite IH.
Qed.

Lemma random_choices_rng {A : Type} (population : list A) (d : A) (k : nat)
      (g : RNG) :
  snd (random_choices population d k g) = mkRNG (floats g) (cursor g + k).
Proof.
  revert g. induction k as [|k IH]; intros g; simpl.
  - destruct g; simpl. now rewrite Nat.add_0_r.
  - specialize (IH (mkRNG (floats g) (S (cursor g)))).
    destruct (random_choices population d k _) as [rest g2]. simpl in *.
    rewrite IH. f_equal. lia.
Qed.

(** The index computed by [random_choices] is inside the population, so the
    default handed to [nth] is never returned. *)
Lemma floor_index_lt (x : float) (n : nat) :
  (0 < n)%nat -> (floor_index x n < n)%nat.
Proof.
  intros Hn. unfold floor_index.
  pose proof (filter_length_le
                (fun j => PrimFloat.leb (float_of_Z (Z.of_nat j)) x)
                (seq 1 (n - 1))) as H.
  rewrite length_seq in H. lia.
Qed.

Lemma initialize_session (g : RNG) :
  session (initialize g)
  = mkSession p_start [] 0 1 0 0
      (fst (random_choices colors Yellow (Z.to_nat TOTAL_TRIALS) g))
      0 None None None None.
Proof.
  unfold initialize.
  now destruct (random_choices colors Yellow (Z.to_nat TOTAL_TRIALS) g).
Qed.

Lemma initialize_inv (g : RNG) : Inv (session (initialize g)).
Proof.
  rewrite initialize_session. constructor.
  - apply random_choices_length.
  - reflexivity.
  - exact I.
  - reflexivity.
  - constructor.
  - unfold page_inv; cbn [page current_trial pumps temp_score]. lia.
Qed.

(** ** The log grows at its end *)

Lemma sum_money_app (l : list TrialRow.t) (r : TrialRow.t) :
  sum_money (l ++ [r]) = sum_money l + TrialRow.money_earned r.
Proof.
  induction l as [|x l IH]; simpl; [lia|]. rewrite IH. lia.
Qed.

Lemma log_wf_app (l : list TrialRow.t) (r : TrialRow.t) (k acc : Z) :
  log_wf k acc l ->
  TrialRow.trial_number r = k + Z.of_nat (List.length l) ->
  TrialRow.total_money_after_trial r = acc + sum_money l + TrialRow.money_earned r ->
  log_wf k acc (l ++ [r]).
Proof.
  revert k acc. induction l as [|x l IH]; intros k acc Hwf Hn Ht.
  - simpl in *. repeat split; lia.
  - destruct Hwf as (H1 & H2 & H3). cbn [app log_wf]. repeat split; auto.
    apply IH; auto.
    + rewrite Hn. cbn [List.length]. lia.
    + rewrite Ht. simpl. lia.
Qed.

Lemma log_wf_nth (l : list TrialRow.t) (k acc : Z) (i : nat) (r : TrialRow.t) :
  log_wf k acc l ->
  nth_error l i = Some r ->
  TrialRow.trial_number r = k + Z.of_nat i /\
  TrialRow.total_money_after_trial r = acc + sum_money (firstn (S i) l).
Proof.
  revert k acc i. induction l as [|x l IH]; intros k acc i Hwf Hi.
  - destruct i; discriminate.
  - destruct Hwf as (H1 & H2 & H3). destruct i as [|i].
    + injection Hi as <-. simpl. split; lia.
    + simpl in Hi. destruct (IH _ _ _ H3 Hi) as [E1 E2]. split.
      * rewrite E1. lia.
      * rewrite E2. cbn [firstn sum_money fold_right].
        change (fold_right (fun r0 a => TrialRow.money_earned r0 + a) 0
                  (firstn (S i) l)) with (sum_money (firstn (S i) l)).
        lia.
Qed.

(** ** One interaction at a time *)

Ltac store :=
  unfold upd, set_page, set_trial_data, set_total_score, set_current_trial,
    set_temp_score, set_pumps, set_max_pumps_this_trial, set_identity,
    set_balloon_size in *;
  cbn [session rng page trial_data total_score current_trial temp_score pumps
       balloon_colors_sequence max_pumps_this_trial participant_name
       department game_id balloon_size bind fst snd random floats cursor
       TrialRow.participant_name TrialRow.department TrialRow.game_id TrialRow.trial_number
       TrialRow.balloon_color TrialRow.pumps TrialRow.exploded TrialRow.money_earned
       TrialRow.total_money_after_trial Page_eqb] in *.

Lemma MAX_PUMPS_MAP_range (c : Color) : 8 <= MAX_PUMPS_MAP c <= 64.
Proof. destruct c; simpl; lia. Qed.

Lemma seq_len_Z (s : SessionState) :
  Inv s -> Z.of_nat (List.length (balloon_colors_sequence s)) = TOTAL_TRIALS.
Proof. intros H. rewrite (inv_seq_len s H). reflexivity. Qed.

(** A pump on the active-trial page. *)
Lemma pump_step (w : World) :
  Inv (session w) -> page (session w) = p_game ->
  exists w',
    handle_pump w = Ok w' /\ interact ClickPump w = Ok w' /\
    Inv (session w') /\
    balloon_colors_sequence (session w') = balloon_colors_sequence (session w) /\
    trial_data (session w') = trial_data (session w) /\
    total_score (session w') = total_score (session w) /\
    current_trial (session w') = current_trial (session w) /\
    max_pumps_this_trial (session w') = max_pumps_this_trial (session w) /\
    pumps (session w') = pumps (session w) + 1 /\
    temp_score (session w') = temp_score (session w) + POINTS_PER_PUMP /\
    (if pumps (session w) + 1 >=? max_pumps_this_trial (session w)
     then page (session w') = p_explosion /\ rng w' = rng w
     else rng w' = snd (random (rng w)) /\
          page (session w') =
            if PrimFloat.ltb (fst (random (rng w)))
                 (prob_explosion (max_pumps_this_trial (session w))
                    (pumps (session w) + 1))
            then p_explosion else p_game).
Proof.
  destruct w as [[pg td ts ct tmp pu sq mx pn dp gi bs] g].
  intros [H1 H2 H3 H4 H5 H6] Hpg. store. subst pg.
  unfold page_inv, trial_on in H6. store.
  destruct H6 as [(Hct & (c & Hc & Hmx) & Htmp & Hid) Hpu].
  unfold interact, handler, handle_pump. store.
  destruct (mx =? 0) eqn:E0; [apply Z.eqb_eq in E0; lia|]. store.
  assert (Hon : forall pg',
             trial_on (mkSession pg' td ts ct (tmp + POINTS_PER_PUMP) (pu + 1)
                         sq mx pn dp gi (Some (150 + (pu + 1) * 5)))).
  { intros pg'. unfold trial_on. store. unfold POINTS_PER_PUMP in *.
    repeat split; try tauto; try lia. now exists c. }
  assert (HI : forall pg',
             pg' = p_game /\ pu + 1 < mx \/ pg' = p_explosion ->
             Inv (mkSession pg' td ts ct (tmp + POINTS_PER_PUMP) (pu + 1)
                    sq mx pn dp gi (Some (150 + (pu + 1) * 5)))).
  { intros pg' Hpg'. constructor; store; auto. unfold page_inv. store.
    destruct Hpg' as [[-> ?] | ->]; (split; [apply Hon | lia]). }
  destruct (pu + 1 >=? mx) eqn:E.
  - store. unfold script, main, explosion_page. store. rewrite Hc.
    eexists; split; [reflexivity|]. split; [reflexivity|]. store.
    split; [apply HI; now right|]. repeat split; auto.
  - assert (E' : pu + 1 < mx).
    { destruct (Z.ltb_spec (pu + 1) mx); [assumption|].
      assert ((pu + 1 >=? mx) = true) by (apply Z.geb_le; lia). congruence. }
    destruct (PrimFloat.ltb (floats g (cursor g)) (prob_explosion mx (pu + 1)))
      eqn:Ed; store; unfold script, main, explosion_page, game_page; store;
      rewrite Hc; store;
      (eexists; split; [reflexivity|]; split; [reflexivity|]; store;
       split; [apply HI; auto|]; repeat split; auto).
Qed.

Ltac finish_trial Hc Hlen :=
  match goal with
  | |- context [?ct + 1 >? TOTAL_TRIALS] =>
      destruct (ct + 1 >? TOTAL_TRIALS) eqn:Eb;
      [ pose proof (proj1 (Z.gtb_lt _ _) Eb) as Eend
      | assert (Enext : ct + 1 <= TOTAL_TRIALS)
          by (destruct (Z.leb_spec (ct + 1) TOTAL_TRIALS); [assumption|];
              assert ((ct + 1 >? TOTAL_TRIALS) = true) by (apply Z.gtb_lt; lia);
              congruence) ]
  end.

Lemma next_trial_step (w : World) (ex : Z) (money : Z) :
  List.length (balloon_colors_sequence (session w)) = Z.to_nat TOTAL_TRIALS ->
  Z.of_nat (List.length (trial_data (session w))) = current_trial (session w) - 1 ->
  log_wf 1 0 (trial_data (session w)) ->
  Forall (row_ok (balloon_colors_sequence (session w))) (trial_data (session w)) ->
  trial_on (session w) ->
  (if Page_eqb (page (session w)) p_explosion then 1
   else if Page_eqb (page (session w)) p_game_over_explosion then 1 else 0) = ex ->
  (if ex =? 0 then temp_score (session w) else 0) = money ->
  total_score (session w) = sum_money (trial_data (session w)) + money ->
  (ex = 1 /\ money = 0 /\ 1 <= pumps (session w) <= max_pumps_this_trial (session w)
   \/ ex = 0 /\ 1 <= pumps (session w) < max_pumps_this_trial (session w)) ->
  exists w' row,
    next_trial w = Ok w' /\ script 2 w' = Ok w' /\ rng w' = rng w /\
    Inv (session w') /\ finalized (session w) (session w') row /\
    TrialRow.exploded row = ex /\ TrialRow.money_earned row = money /\
    total_score (session w') = total_score (session w).
Proof.
  destruct w as [[pg td ts ct tmp pu sq mx pn dp gi bs] g].
  intros H1 H2 H3 H5 (Hct & (c & Hc & Hmx) & Htmp & Hn & Hd & Hg).
  store. intros Hex Hmoney Htot Hcase.
  assert (Hlen : Z.of_nat (List.length sq) = TOTAL_TRIALS)
    by (rewrite H1; reflexivity).
  unfold next_trial. store. rewrite Hc, Hex, Hmoney.
  destruct pn as [name|]; [|congruence].
  destruct dp as [dept|]; [|congruence].
  destruct gi as [gid|]; [|congruence].
  set (row := TrialRow.mk name dept gid ct c pu ex money ts).
  assert (Hrow : row_ok sq row).
  { unfold row_ok, row. store. split; [assumption|].
    destruct Hcase as [(E1 & E2 & E3) | (E1 & E3)]; [left | right];
      rewrite E1 in Hmoney; cbn [Z.eqb] in Hmoney; repeat split; lia. }
  assert (Hwf : log_wf 1 0 (td ++ [row])).
  { apply log_wf_app; auto; unfold row; store; lia. }
  finish_trial Hc Hlen.
  - exists (mkWorld (mkSession p_end (td ++ [row]) ts (ct + 1) 0 0 sq mx
                       (Some name) (Some dept) (Some gid) bs) g), row.
    unfold script, main, end_page. store.
    repeat split; store; auto; try lia.
    + rewrite length_app. simpl. lia.
    + rewrite sum_money_app. unfold row. store. lia.
    + apply Forall_app. split; [assumption | now constructor].
    + now rewrite Eb.
  - unfold setup_new_trial. store.
    replace (ct + 1 <=? TOTAL_TRIALS) with true
      by (symmetry; apply Z.leb_le; lia).
    destruct (py_index_in_range sq (ct + 1)) as [c' Hc']; [lia|].
    rewrite Hc'. store.
    exists (mkWorld (mkSession p_game (td ++ [row]) ts (ct + 1) 0 0 sq
                       (MAX_PUMPS_MAP c')
                       (Some name) (Some dept) (Some gid) bs) g), row.
    unfold script, main, game_page. store. rewrite Hc'. store.
    pose proof (MAX_PUMPS_MAP_range c') as Hr.
    repeat split; store; auto; try lia; try congruence.
    + rewrite length_app. simpl. lia.
    + rewrite sum_money_app. unfold row. store. lia.
    + apply Forall_app. split; [assumption | now constructor].
    + unfold page_inv, trial_on. store.
      repeat split; try lia; try congruence. now exists c'.
    + now rewrite Eb.
Qed.

(** Collecting on the active-trial page (the button is live: pumps <> 0). *)
Lemma collect_step (w : World) :
  Inv (session w) -> page (session w) = p_game -> pumps (session w) <> 0 ->
  exists w' row,
    handle_collect w = Ok w' /\ interact ClickCollect w = Ok w' /\
    rng w' = rng w /\ Inv (session w') /\
    finalized (session w) (session w') row /\
    TrialRow.exploded row = 0 /\
    TrialRow.money_earned row = temp_score (session w) /\
    total_score (session w') = total_score (session w) + temp_score (session w).
Proof.
  intros HI Hpg Hpu.
  pose proof (inv_page _ HI) as Hp. unfold page_inv in Hp. rewrite Hpg in Hp.
  destruct Hp as [Hon Hrange].
  destruct HI as [H1 H2 H3 H4 H5 _].
  set (w1 := upd (fun s => set_total_score (total_score s + temp_score s) s) w).
  destruct (next_trial_step w1 0 (temp_score (session w)))
    as (w' & row & E1 & E2 & E3 & E4 & E5 & E6 & E7 & E8);
    try (subst w1; destruct w as [[pg td ts ct tmp pu sq mx pn dp gi bs] g];
         store; auto; fail).
  - subst w1. destruct w as [[pg td ts ct tmp pu sq mx pn dp gi bs] g].
    store. now subst pg.
  - subst w1. destruct w as [[pg td ts ct tmp pu sq mx pn dp gi bs] g].
    store. lia.
  - right. subst w1. destruct w as [[pg td ts ct tmp pu sq mx pn dp gi bs] g].
    store. lia.
  - exists w', row. unfold interact, handler, handle_collect. fold w1.
    rewrite E1. subst w1.
    destruct w as [[pg td ts ct tmp pu sq mx pn dp gi bs] g]. store.
    split; [reflexivity|]. split; [exact E2|]. split; [exact E3|].
    split; [exact E4|]. split; [exact E5|]. split; [exact E6|].
    split; [exact E7|exact E8].
Qed.

(** Continuing from the explosion page. *)
Lemma continue_step (w : World) :
  Inv (session w) -> page (session w) = p_explosion ->
  exists w' row,
    next_trial w = Ok w' /\ interact ClickContinue w = Ok w' /\
    rng w' = rng w /\ Inv (session w') /\
    finalized (session w) (session w') row /\
    TrialRow.exploded row = 1 /\
    TrialRow.money_earned row = 0 /\
    total_score (session w') = total_score (session w).
Proof.
  intros HI Hpg.
  pose proof (inv_page _ HI) as Hp. unfold page_inv in Hp. rewrite Hpg in Hp.
  destruct Hp as [Hon Hrange].
  destruct HI as [H1 H2 H3 H4 H5 _].
  destruct (next_trial_step w 1 0)
    as (w' & row & E1 & E2 & E3 & E4 & E5 & E6 & E7 & E8); auto.
  - now rewrite Hpg.
  - lia.
  - exists w', row. unfold interact, handler. rewrite E1. auto 10.
Qed.

(** Submitting the identity form on the start page. *)
Lemma submit_step (w : World) (name dept gid : string) :
  Inv (session w) -> page (session w) = p_start ->
  exists w',
    interact (Submit name dept gid) w = Ok w' /\
    rng w' = rng w /\ Inv (session w') /\
    balloon_colors_sequence (session w') = balloon_colors_sequence (session w) /\
    trial_data (session w') = trial_data (session w) /\
    total_score (session w') = total_score (session w) /\
    current_trial (session w') = current_trial (session w) /\
    (page (session w') = p_start /\ w' = w \/
     page (session w') = p_game /\
     game_id (session w') = Some (sanitize_game_id gid)).
Proof.
  destruct w as [[pg td ts ct tmp pu sq mx pn dp gi bs] g].
  intros [H1 H2 H3 H4 H5 H6] Hpg. store. subst pg.
  unfold page_inv in H6. store. destruct H6 as (Hct & Hpu & Htmp).
  unfold interact, handler, start_page_submitted.
  destruct ((name =? "")%string || (dept =? "Select Department")%string
            || (gid =? "")%string).
  - unfold script, main. store. eexists. split; [reflexivity|]. store.
    repeat split; auto.
  - unfold setup_new_trial. store. subst ct.
    change (1 <=? TOTAL_TRIALS) with true. cbv iota.
    destruct (py_index_in_range sq 1) as [c Hc].
    { rewrite H1. unfold TOTAL_TRIALS. simpl. lia. }
    rewrite Hc. store. unfold script, main, game_page. store. rewrite Hc. store.
    eexists. split; [reflexivity|]. store.
    pose proof (MAX_PUMPS_MAP_range c).
    split; [reflexivity|]. split.
    { constructor; store; auto. unfold page_inv, trial_on. store. subst.
      unfold TOTAL_TRIALS.
      repeat split; try lia; try congruence. now exists c. }
    repeat split; auto.
Qed.

(** Every widget on the screen can be activated: handling it returns, and the
    invariant carries over. *)
Lemma interact_inv (w : World) (ev : Event) :
  Inv (session w) -> offered ev (session w) = true ->
  exists w',
    interact ev w = Ok w' /\ Inv (session w') /\
    balloon_colors_sequence (session w') = balloon_colors_sequence (session w).
Proof.
  intros HI Hoff. unfold offered in Hoff.
  destruct ev as [name dept gid | | | ];
    destruct (page (session w)) eqn:Hpg; try discriminate.
  - destruct (submit_step w name dept gid HI Hpg) as (w' & ? & ? & ? & ? & _).
    eauto.
  - destruct (pump_step w HI Hpg) as (w' & ? & ? & ? & ? & _). eauto.
  - apply negb_true_iff, Z.eqb_neq in Hoff.
    destruct (collect_step w HI Hpg Hoff) as (w' & row & ? & ? & ? & ? & F & _).
    exists w'. split; [assumption|]. split; [assumption|]. apply F.
  - destruct (continue_step w HI Hpg) as (w' & row & ? & ? & ? & ? & F & _).
    exists w'. split; [assumption|]. split; [assumption|]. apply F.
  - pose proof (inv_page _ HI) as Hp. unfold page_inv in Hp.
    now rewrite Hpg in Hp.
Qed.

Lemma reachable_inv (w : World) : reachable w -> Inv (session w).
Proof.
  induction 1 as [g | w w' ev _ IH Hoff Hstep].
  - apply initialize_inv.
  - destruct (interact_inv w ev IH Hoff) as (w1 & E & HI & _).
    rewrite E in Hstep. injection Hstep as <-. exact HI.
Qed.

Lemma play_reachable (evs : list Event) (w w' : World) :
  reachable w -> play evs w = Some w' -> reachable w'.
Proof.
  revert w. induction evs as [|ev evs IH]; intros w Hr Hp; simpl in Hp.
  - injection Hp as <-. exact Hr.
  - destruct (offered ev (session w)) eqn:Hoff; [|discriminate].
    destruct (interact ev w) as [w1| |] eqn:E; try discriminate.
    apply (IH w1); [|exact Hp]. now apply (reach_step w w1 ev).
Qed.

(** What one interaction of a session changes, by the widget activated. *)
Lemma step_cases (w w' : World) (ev : Event) :
  Inv (session w) -> offered ev (session w) = true -> interact ev w = Ok w' ->
  Inv (session w') /\
  balloon_colors_sequence (session w') = balloon_colors_sequence (session w) /\
  match ev with
  | Submit _ _ _ =>
      page (session w) = p_start /\
      trial_data (session w') = trial_data (session w) /\
      total_score (session w') = total_score (session w) /\
      current_trial (session w') = current_trial (session w)
  | ClickPump =>
      page (session w) = p_game /\
      trial_data (session w') = trial_data (session w) /\
      total_score (session w') = total_score (session w) /\
      current_trial (session w') = current_trial (session w)
  | ClickCollect =>
      page (session w) = p_game /\
      exists row,
        finalized (session w) (session w') row /\
        TrialRow.exploded row = 0 /\
        TrialRow.money_earned row = temp_score (session w) /\
        total_score (session w') = total_score (session w) + temp_score (session w)
  | ClickContinue =>
      page (session w) = p_explosion /\
      exists row,
        finalized (session w) (session w') row /\
        TrialRow.exploded row = 1 /\
        TrialRow.money_earned row = 0 /\
        total_score (session w') = total_score (session w)
  end.
Proof.
  intros HI Hoff Hstep. unfold offered in Hoff.
  destruct ev as [name dept gid | | | ];
    destruct (page (session w)) eqn:Hpg; try discriminate.
  - destruct (submit_step w name dept gid HI Hpg)
      as (w1 & E & _ & ? & ? & ? & ? & ? & _).
    rewrite E in Hstep. injection Hstep as <-. auto 10.
  - destruct (pump_step w HI Hpg) as (w1 & _ & E & ? & ? & ? & ? & ? & _).
    rewrite E in Hstep. injection Hstep as <-. auto 10.
  - apply negb_true_iff, Z.eqb_neq in Hoff.
    destruct (collect_step w HI Hpg Hoff)
      as (w1 & row & _ & E & _ & ? & F & ? & ? & ?).
    rewrite E in Hstep. injection Hstep as <-.
    split; [assumption|]. split; [apply F|]. split; [reflexivity|].
    exists row. auto.
  - destruct (continue_step w HI Hpg)
      as (w1 & row & _ & E & _ & ? & F & ? & ? & ?).
    rewrite E in Hstep. injection Hstep as <-.
    split; [assumption|]. split; [apply F|]. split; [reflexivity|].
    exists row. auto.
  - pose proof (inv_page _ HI) as Hp. unfold page_inv in Hp.
    now rewrite Hpg in Hp.
Qed.

(** ** Sample sessions *)

Lemma world_after_reachable (evs : list Event) (g : RNG) :
  reachable (world_after evs g).
Proof.
  unfold world_after. destruct (play evs (initialize g)) as [w|] eqn:E.
  - apply (play_reachable evs (initialize g)); [constructor | exact E].
  - constructor.
Qed.

(** ** The ceiling *)

(** The forced branch of [handle_pump], in closed form. *)
Lemma handle_pump_forced (s : SessionState) (g : RNG) :
  max_pumps_this_trial s <> 0 ->
  max_pumps_this_trial s <= pumps s + 1 ->
  handle_pump (mkWorld s g)
  = Ok (mkWorld
          (set_balloon_size (150 + (pumps s + 1) * 5)
             (set_page p_explosion
                (set_temp_score (temp_score s + POINTS_PER_PUMP)
                   (set_pumps (pumps s + 1) s))))
          g).
Proof.
  intros H0 Hge. unfold handle_pump. store.
  destruct (max_pumps_this_trial s =? 0) eqn:E0;
    [apply Z.eqb_eq in E0; contradiction|].
  store.
  replace (pumps s + 1 >=? max_pumps_this_trial s) with true
    by (symmetry; apply Z.geb_le; exact Hge).
  reflexivity.
Qed.

(** C1.  In every state of a session: on the active-trial page, the pump
    that brings the pump count to the ceiling of the trial's colour puts the
    page on [explosion] whatever the generator holds, and leaves the
    generator untouched (no draw is made); no row of the log, the row of the
    last trial and a complete log included, has more pumps than the ceiling
    of its colour, and a row at the ceiling is an exploded one; and the
    trial that is on never has more pumps than its ceiling, and has burst
    when it is at the ceiling. *)
Theorem ceiling_pump_explodes_without_draw (w : World) :
  reachable w ->
  (forall c : Color,
      page (session w) = p_game ->
      py_index (balloon_colors_sequence (session w))
        (current_trial (session w) - 1) = Some c ->
      pumps (session w) + 1 = MAX_PUMPS_MAP c ->
      exists w',
        handle_pump w = Ok w' /\
        page (session w') = p_explosion /\
        pumps (session w') = MAX_PUMPS_MAP c /\
        rng w' = rng w /\
        forall g : RNG,
          exists w'', handle_pump (mkWorld (session w) g) = Ok w'' /\
                      session w'' = session w' /\ rng w'' = g) /\
  Forall (fun row =>
            TrialRow.pumps row <= MAX_PUMPS_MAP (TrialRow.balloon_color row) /\
            (TrialRow.pumps row = MAX_PUMPS_MAP (TrialRow.balloon_color row) ->
             TrialRow.exploded row = 1))
         (trial_data (session w)) /\
  (forall c : Color,
      page (session w) = p_game \/ page (session w) = p_explosion ->
      py_index (balloon_colors_sequence (session w))
        (current_trial (session w) - 1) = Some c ->
      pumps (session w) <= MAX_PUMPS_MAP c /\
      (pumps (session w) = MAX_PUMPS_MAP c ->
       page (session w) = p_explosion)).
Proof.
  intros Hr. pose proof (reachable_inv w Hr) as HI.
  destruct w as [s g0]. cbn [session rng] in *. split; [|split].
  - intros c Hpg Hc Hp.
    pose proof (inv_page _ HI) as Hpi. unfold page_inv in Hpi.
    rewrite Hpg in Hpi. destruct Hpi as [(_ & (c' & Hc' & Hmx) & _) Hrange].
    rewrite Hc in Hc'. injection Hc' as <-.
    assert (Hforced : forall g,
               handle_pump (mkWorld s g)
               = Ok (mkWorld
                       (set_balloon_size (150 + (pumps s + 1) * 5)
                          (set_page p_explosion
                             (set_temp_score (temp_score s + POINTS_PER_PUMP)
                                (set_pumps (pumps s + 1) s))))
                       g))
      by (intros g; apply handle_pump_forced; lia).
    eexists. split; [apply (Hforced g0)|].
    store. repeat split; auto.
    intros g. eexists. split; [apply Hforced|]. split; reflexivity.
  - apply Forall_impl with (2 := inv_rows _ HI).
    intros row [_ [(E1 & _ & E3) | (E1 & _ & E3)]]; split; auto; lia.
  - intros c Hpg Hc.
    pose proof (inv_page _ HI) as Hpi. unfold page_inv in Hpi.
    destruct Hpg as [Hpg | Hpg]; rewrite Hpg in Hpi;
      destruct Hpi as [(_ & (c' & Hc' & Hmx) & _) Hrange];
      rewrite Hc in Hc'; injection Hc' as <-; split; try lia; auto.
Qed.

Lemma ceiling_pump_explodes_without_draw_witness :
  (exists w',
      handle_pump yellow_second_at_seven = Ok w' /\
      page (session w') = p_explosion /\
      map TrialRow.pumps (trial_data (session w')) = [8]) /\
  Forall (fun row =>
            TrialRow.pumps row <= MAX_PUMPS_MAP (TrialRow.balloon_color row) /\
            (TrialRow.pumps row = MAX_PUMPS_MAP (TrialRow.balloon_color row) ->
             TrialRow.exploded row = 1))
         (trial_data (session blue_session)).
Proof.
  split.
  - destruct (ceiling_pump_explodes_without_draw yellow_second_at_seven)
      as (Hpump & _ & _); [apply world_after_reachable|].
    destruct (Hpump Yellow) as (w' & E & Hpage & _).
    + vm_compute. reflexivity.
    + vm_compute. reflexivity.
    + vm_compute. reflexivity.
    + exists w'. split; [exact E|]. split; [exact Hpage|].
      vm_compute in E. injection E as <-. reflexivity.
  - destruct (ceiling_pump_explodes_without_draw blue_session)
      as (_ & Hlog & _); [apply world_after_reachable|]. exact Hlog.
Defined.

(** ** The risk curve *)

Lemma all_upto_spec (n : nat) (f : Z -> bool) :
  all_upto n f = true -> forall p, 0 <= p < Z.of_nat n -> f p = true.
Proof.
  induction n as [|n IH]; intros H p Hp; [lia|].
  cbn [all_upto] in H. apply andb_true_iff in H as [H1 H2].
  destruct (Z.eq_dec p (Z.of_nat n)) as [->|Hne]; [exact H1|].
  apply IH; [exact H2 | lia].
Qed.

(** The probabilistic branch of [handle_pump], in closed form. *)
Lemma handle_pump_draw (s : SessionState) (g : RNG) :
  max_pumps_this_trial s <> 0 ->
  pumps s + 1 < max_pumps_this_trial s ->
  handle_pump (mkWorld s g)
  = Ok (mkWorld
          (set_balloon_size (150 + (pumps s + 1) * 5)
             (set_page
                (if PrimFloat.ltb (fst (random g))
                      (prob_explosion (max_pumps_this_trial s) (pumps s + 1))
                 then p_explosion else page s)
                (set_temp_score (temp_score s + POINTS_PER_PUMP)
                   (set_pumps (pumps s + 1) s))))
          (snd (random g))).
Proof.
  intros H0 Hlt. unfold handle_pump. store.
  destruct (max_pumps_this_trial s =? 0) eqn:E0;
    [apply Z.eqb_eq in E0; contradiction|].
  store.
  destruct (pumps s + 1 >=? max_pumps_this_trial s) eqn:E;
    [apply Z.geb_le in E; lia|].
  destruct (PrimFloat.ltb (floats g (cursor g))
              (prob_explosion (max_pumps_this_trial s) (pumps s + 1)));
    store; [reflexivity|].
  destruct s; reflexivity.
Qed.

(** On the active-trial page of a session the ceiling in the store is the
    ceiling of the current trial's colour, and the pump count is below it. *)
Lemma active_trial_ceiling (w : World) (c : Color) :
  reachable w ->
  page (session w) = p_game ->
  py_index (balloon_colors_sequence (session w)) (current_trial (session w) - 1)
    = Some c ->
  max_pumps_this_trial (session w) = MAX_PUMPS_MAP c /\
  0 <= pumps (session w) < MAX_PUMPS_MAP c.
Proof.
  intros Hr Hpg Hc. pose proof (inv_page _ (reachable_inv w Hr)) as Hpi.
  unfold page_inv in Hpi. rewrite Hpg in Hpi.
  destruct Hpi as [(_ & (c' & Hc' & Hmx) & _) Hrange].
  rewrite Hc in Hc'. injection Hc' as <-. split; [exact Hmx | lia].
Qed.

(** The denominators of [prob_explosion] in a session. *)
Lemma pump_denominator_range (w : World) :
  reachable w ->
  page (session w) = p_game ->
  pumps (session w) + 1 < max_pumps_this_trial (session w) ->
  2 <= max_pumps_this_trial (session w) - (pumps (session w) + 1) + 1 <= 64.
Proof.
  intros Hr Hpg Hlt. pose proof (inv_page _ (reachable_inv w Hr)) as Hpi.
  unfold page_inv in Hpi. rewrite Hpg in Hpi.
  destruct Hpi as [(_ & (c & _ & Hmx) & _) Hrange].
  pose proof (MAX_PUMPS_MAP_range c). lia.
Qed.

(** On these denominators [float_of_Z] is exact. *)
Lemma float_of_Z_exact (z : Z) :
  1 <= z <= 64 -> represents (float_of_Z z) z = true.
Proof.
  intros Hz.
  assert (H : all_upto 65
                (fun z => (z <? 1) || represents (float_of_Z z) z) = true)
    by (vm_compute; reflexivity).
  pose proof (all_upto_spec _ _ H z ltac:(lia)) as H1. cbv beta in H1.
  apply orb_true_iff in H1 as [H1|H1]; [|exact H1].
  apply Z.ltb_lt in H1. lia.
Qed.

Lemma probability_at_most_half (c : Color) (p : Z) :
  1 <= p < MAX_PUMPS_MAP c ->
  PrimFloat.leb (prob_explosion (MAX_PUMPS_MAP c) p) 0.5 = true.
Proof.
  intros Hp.
  assert (H : all_upto 64
                (fun p => (p <? 1) || (MAX_PUMPS_MAP c <=? p)
                          || PrimFloat.leb (prob_explosion (MAX_PUMPS_MAP c) p)
                               0.5) = true)
    by (destruct c; vm_compute; reflexivity).
  pose proof (MAX_PUMPS_MAP_range c) as Hr.
  specialize (all_upto_spec _ _ H p). intros Hs.
  assert (Hin : 0 <= p < Z.of_nat 64) by lia.
  specialize (Hs Hin).
  apply orb_true_iff in Hs as [Hs|Hs]; [|exact Hs].
  apply orb_true_iff in Hs as [Hs|Hs].
  - apply Z.ltb_lt in Hs. lia.
  - apply Z.leb_le in Hs. lia.
Qed.

(** C2, as the code has it.  For every tier, [prob_explosion] at
    [max_pumps - 1] is 1/2, not 1, and it is at most 1/2 over the whole
    probabilistic regime [1 <= p < max_pumps]; in a session, the pump that
    brings the pump count to [max_pumps - 1] draws one number and bursts the
    balloon exactly when the draw is below 1/2.  Only the forced branch at the
    ceiling is certain. *)
Theorem probability_one_before_ceiling_is_half (c : Color) :
  prob_explosion (MAX_PUMPS_MAP c) (MAX_PUMPS_MAP c - 1) = 0.5%float /\
  (forall p : Z,
      1 <= p < MAX_PUMPS_MAP c ->
      PrimFloat.leb (prob_explosion (MAX_PUMPS_MAP c) p) 0.5 = true) /\
  (forall w : World,
      reachable w ->
      page (session w) = p_game ->
      py_index (balloon_colors_sequence (session w))
        (current_trial (session w) - 1) = Some c ->
      pumps (session w) + 1 = MAX_PUMPS_MAP c - 1 ->
      exists w',
        handle_pump w = Ok w' /\
        pumps (session w') = MAX_PUMPS_MAP c - 1 /\
        rng w' = snd (random (rng w)) /\
        page (session w') =
          (if PrimFloat.ltb (fst (random (rng w))) 0.5
           then p_explosion else p_game)).
Proof.
  assert (Hhalf : prob_explosion (MAX_PUMPS_MAP c) (MAX_PUMPS_MAP c - 1)
                  = 0.5%float).
  { unfold prob_explosion.
    replace (MAX_PUMPS_MAP c - (MAX_PUMPS_MAP c - 1) + 1) with 2 by lia.
    reflexivity. }
  split; [exact Hhalf|]. split; [apply probability_at_most_half|].
  intros w Hr Hpg Hc Hp.
  destruct (active_trial_ceiling w c Hr Hpg Hc) as [Hmx Hrange].
  destruct w as [s g]. cbn [session rng] in *.
  eexists. split.
  { apply handle_pump_draw; lia. }
  store. rewrite Hmx, Hpg, Hp, Hhalf. repeat split.
Qed.

Lemma probability_one_before_ceiling_is_half_witness :
  exists w',
    handle_pump yellow_at_six = Ok w' /\
    pumps (session w') = MAX_PUMPS_MAP Yellow - 1 /\
    page (session w') = p_game.
Proof.
  destruct (probability_one_before_ceiling_is_half Yellow) as (_ & _ & H).
  destruct (H yellow_at_six) as (w' & E & Hp & _ & Hpage).
  - apply world_after_reachable.
  - reflexivity.
  - reflexivity.
  - reflexivity.
  - exists w'. split; [exact E|]. split; [exact Hp|].
    rewrite Hpage. vm_compute. reflexivity.
Defined.

(** C2, as stated, fails: on a yellow balloon (ceiling 8) the seventh pump,
    one before the ceiling, compares the draw with 0.5, and a draw of 0.75
    leaves the balloon intact. *)
Lemma probability_one_before_ceiling_is_not_one :
  py_index (balloon_colors_sequence (session yellow_at_six))
    (current_trial (session yellow_at_six) - 1) = Some Yellow /\
  pumps (session yellow_at_six) + 1 = MAX_PUMPS_MAP Yellow - 1 /\
  prob_explosion (max_pumps_this_trial (session yellow_at_six))
    (pumps (session yellow_at_six) + 1) <> 1%float /\
  exists w',
    handle_pump yellow_at_six = Ok w' /\
    pumps (session w') = 7 /\ page (session w') = p_game.
Proof.
  split; [vm_compute; reflexivity|]. split; [vm_compute; reflexivity|]. split.
  - vm_compute. intros H.
    discriminate (f_equal (fun f => PrimFloat.ltb f 1) H).
  - eexists. split; [vm_compute; reflexivity|]. split; reflexivity.
Qed.

Lemma probability_increasing (c : Color) (p q : Z) :
  1 <= p -> p < q -> q < MAX_PUMPS_MAP c ->
  PrimFloat.ltb (explosion_probability c p) (explosion_probability c q) = true.
Proof.
  intros Hp Hpq Hq.
  assert (H : all_upto 64
                (fun p =>
                   all_upto 64
                     (fun q =>
                        (p <? 1) || (q <=? p) || (MAX_PUMPS_MAP c <=? q)
                        || PrimFloat.ltb (explosion_probability c p)
                             (explosion_probability c q))) = true)
    by (destruct c; vm_compute; reflexivity).
  pose proof (MAX_PUMPS_MAP_range c) as Hr.
  assert (Hin : forall x, 1 <= x < MAX_PUMPS_MAP c -> 0 <= x < Z.of_nat 64)
    by (intros; lia).
  pose proof (all_upto_spec _ _ H p (Hin p ltac:(lia))) as H1. cbv beta in H1.
  pose proof (all_upto_spec _ _ H1 q (Hin q ltac:(lia))) as H2. cbv beta in H2.
  repeat (apply orb_true_iff in H2 as [H2|H2]); auto.
  - apply Z.ltb_lt in H2. lia.
  - apply Z.leb_le in H2. lia.
  - apply Z.leb_le in H2. lia.
Qed.

Lemma probability_correctly_rounded (c : Color) (p : Z) :
  1 <= p < MAX_PUMPS_MAP c ->
  nearest_to_inverse (explosion_probability c p) (MAX_PUMPS_MAP c - p + 1)
  = true.
Proof.
  intros Hp.
  assert (H : all_upto 64
                (fun p =>
                   (p <? 1) || (MAX_PUMPS_MAP c <=? p)
                   || nearest_to_inverse (explosion_probability c p)
                        (MAX_PUMPS_MAP c - p + 1)) = true)
    by (destruct c; vm_compute; reflexivity).
  pose proof (MAX_PUMPS_MAP_range c) as Hr.
  pose proof (all_upto_spec _ _ H p ltac:(lia)) as H1. cbv beta in H1.
  repeat (apply orb_true_iff in H1 as [H1|H1]); auto.
  - apply Z.ltb_lt in H1. lia.
  - apply Z.leb_le in H1. lia.
Qed.

Lemma Page_eqb_eq (a b : Page) : Page_eqb a b = true -> a = b.
Proof. destruct a, b; simpl; congruence. Qed.

Lemma Color_eqb_eq (a b : Color) : Color_eqb a b = true -> a = b.
Proof. destruct a, b; simpl; congruence. Qed.

(** Every pump count of the probabilistic regime occurs in some session. *)
Lemma pump_count_reachable (c : Color) (p : Z) :
  1 <= p < MAX_PUMPS_MAP c ->
  exists w : World,
    reachable w /\
    page (session w) = p_game /\
    py_index (balloon_colors_sequence (session w))
      (current_trial (session w) - 1) = Some c /\
    pumps (session w) + 1 = p.
Proof.
  intros Hp.
  exists (pumped c (Z.to_nat (p - 1))).
  split; [apply world_after_reachable|].
  assert (H : all_upto 64
                (fun p =>
                   (p <? 1) || (MAX_PUMPS_MAP c <=? p)
                   || at_pump_count c p (pumped c (Z.to_nat (p - 1)))) = true)
    by (destruct c; vm_compute; reflexivity).
  pose proof (MAX_PUMPS_MAP_range c) as Hr.
  pose proof (all_upto_spec _ _ H p ltac:(lia)) as H1. cbv beta in H1.
  repeat (apply orb_true_iff in H1 as [H1|H1]).
  - apply Z.ltb_lt in H1. lia.
  - apply Z.leb_le in H1. lia.
  - unfold at_pump_count in H1.
    apply andb_true_iff in H1 as [H1 H4]. apply andb_true_iff in H1 as [H1 H3].
    apply Page_eqb_eq in H1. apply Z.eqb_eq in H3.
    destruct (py_index _ _) as [c'|]; [|discriminate].
    apply Color_eqb_eq in H4. subst c'. auto.
Qed.

(** C3.  For every tier [c] and every pump count [p] with
    [1 <= p < max_pumps(c)]: in a session, the pump that brings the pump
    count to [p] on a balloon of colour [c] draws one number and compares it
    with [explosion_probability c p], the binary64 quotient
    [1 / (max_pumps(c) - p + 1)] (such sessions exist); that number is the
    binary64 number nearest to the rational [1 / (max_pumps(c) - p + 1)];
    and it is strictly below the value at any larger pump count of the
    regime. *)
Theorem pump_threshold_is_explosion_probability (c : Color) (p : Z) :
  1 <= p < MAX_PUMPS_MAP c ->
  (forall w : World,
      reachable w ->
      page (session w) = p_game ->
      py_index (balloon_colors_sequence (session w))
        (current_trial (session w) - 1) = Some c ->
      pumps (session w) + 1 = p ->
      exists w',
        handle_pump w = Ok w' /\
        pumps (session w') = p /\
        rng w' = snd (random (rng w)) /\
        page (session w') =
          (if PrimFloat.ltb (fst (random (rng w))) (explosion_probability c p)
           then p_explosion else p_game)) /\
  (exists w : World,
      reachable w /\
      page (session w) = p_game /\
      py_index (balloon_colors_sequence (session w))
        (current_trial (session w) - 1) = Some c /\
      pumps (session w) + 1 = p) /\
  nearest_to_inverse (explosion_probability c p) (MAX_PUMPS_MAP c - p + 1)
  = true /\
  (forall q : Z,
      p < q < MAX_PUMPS_MAP c ->
      PrimFloat.ltb (explosion_probability c p) (explosion_probability c q)
      = true).
Proof.
  intros Hp. split; [|split; [|split]].
  - intros w Hr Hpg Hc Hpu.
    destruct (active_trial_ceiling w c Hr Hpg Hc) as [Hmx Hrange].
    destruct w as [s g]. cbn [session rng] in *.
    eexists. split.
    { apply handle_pump_draw; lia. }
    store. rewrite Hmx, Hpg, Hpu. repeat split.
  - apply pump_count_reachable, Hp.
  - apply probability_correctly_rounded, Hp.
  - intros q Hq. apply probability_increasing; lia.
Qed.

Lemma pump_threshold_is_explosion_probability_witness :
  (exists w',
      handle_pump yellow_at_six = Ok w' /\
      page (session w') =
        (if PrimFloat.ltb 0.75 (explosion_probability Yellow 7)
         then p_explosion else p_game)) /\
  PrimFloat.ltb (explosion_probability Yellow 6) (explosion_probability Yellow 7)
  = true.
Proof.
  destruct (pump_threshold_is_explosion_probability Yellow 7)
    as (Hpump & _ & _ & Hmono).
  - vm_compute. split; [discriminate | reflexivity].
  - clear Hmono. destruct (Hpump yellow_at_six) as (w' & E & _ & _ & Hpage).
    + apply world_after_reachable.
    + vm_compute. reflexivity.
    + vm_compute. reflexivity.
    + vm_compute. reflexivity.
    + split; [exists w'; split; [exact E | exact Hpage]|].
      vm_compute. reflexivity.
Defined.

(** ** Scoring *)

(** A pump in a session leaves the page on [game] or moves it to
    [explosion], and changes neither the log, the total nor the trial
    counter. *)
Lemma pump_step_page (w w' : World) :
  reachable w ->
  page (session w) = p_game ->
  interact ClickPump w = Ok w' ->
  (page (session w') = p_game \/ page (session w') = p_explosion) /\
  trial_data (session w') = trial_data (session w) /\
  total_score (session w') = total_score (session w) /\
  current_trial (session w') = current_trial (session w) /\
  pumps (session w') = pumps (session w) + 1 /\
  temp_score (session w') = temp_score (session w) + POINTS_PER_PUMP.
Proof.
  intros Hr Hpg Hstep. pose proof (reachable_inv w Hr) as HI.
  destruct (pump_step w HI Hpg)
    as (w1 & _ & E & _ & _ & Htd & Hts & Hct & _ & Hpu & Htmp & Hbr).
  rewrite E in Hstep. injection Hstep as <-.
  repeat split; auto.
  destruct (pumps (session w) + 1 >=? max_pumps_this_trial (session w));
    [right; apply Hbr|].
  destruct Hbr as [_ ->]. destruct (PrimFloat.ltb _ _); auto.
Qed.

(** A whole trial: from any state of the active-trial page, [n] pumps and
    then the action that finalizes it. *)
Lemma trial_run (n : nat) :
  forall (w w' : World) (ev : Event),
    reachable w ->
    page (session w) = p_game ->
    play (repeat ClickPump n ++ [ev]) w = Some w' ->
    ev <> ClickPump ->
    exists row,
      trial_data (session w') = trial_data (session w) ++ [row] /\
      TrialRow.trial_number row = current_trial (session w) /\
      TrialRow.pumps row = pumps (session w) + Z.of_nat n /\
      (ev = ClickContinue /\
       TrialRow.exploded row = 1 /\
       TrialRow.money_earned row = 0 /\
       total_score (session w') = total_score (session w)
       \/
       ev = ClickCollect /\
       TrialRow.exploded row = 0 /\
       TrialRow.money_earned row
       = (pumps (session w) + Z.of_nat n) * POINTS_PER_PUMP /\
       total_score (session w')
       = total_score (session w) + TrialRow.money_earned row).
Proof.
  induction n as [|n IH]; intros w w' ev Hr Hpg Hplay Hev.
  - cbn [repeat app play] in Hplay.
    destruct (offered ev (session w)) eqn:Hoff; [|discriminate].
    destruct (interact ev w) as [w1| |] eqn:E; try discriminate.
    injection Hplay as <-. pose proof (reachable_inv w Hr) as HI.
    destruct (step_cases w w1 ev HI Hoff E) as (_ & _ & Hcase).
    destruct ev; try congruence.
    + unfold offered in Hoff. rewrite Hpg in Hoff. discriminate.
    + destruct Hcase as (_ & row & F & E1 & E2 & E3).
      pose proof (inv_page _ HI) as Hpi. unfold page_inv in Hpi.
      rewrite Hpg in Hpi. destruct Hpi as [(_ & _ & Htmp & _) _].
      destruct F as (_ & F2 & _ & _ & _ & _ & F7 & _ & F9 & _).
      exists row. rewrite Z.add_0_r. repeat split; auto.
      right. repeat split; auto; [congruence|]. rewrite E3, E2. reflexivity.
    + unfold offered in Hoff. rewrite Hpg in Hoff. discriminate.
  - cbn [repeat app play] in Hplay.
    destruct (offered ClickPump (session w)) eqn:Hoff; [|discriminate].
    destruct (interact ClickPump w) as [w1| |] eqn:E; try discriminate.
    destruct (pump_step_page w w1 Hr Hpg E)
      as (Hpg1 & Htd & Hts & Hct & Hpu & _).
    assert (Hr1 : reachable w1) by (now apply (reach_step w w1 ClickPump)).
    destruct Hpg1 as [Hpg1 | Hpg1].
    + destruct (IH w1 w' ev Hr1 Hpg1 Hplay Hev)
        as (row & F1 & F2 & F3 & F4).
      exists row. rewrite F1, F2, F3, Htd, Hct, Hpu.
      split; [reflexivity|]. split; [reflexivity|]. split; [lia|].
      destruct F4 as [(-> & G1 & G2 & G3) | (-> & G1 & G2 & G3)]; [left|right];
        repeat split; auto; try congruence;
        try (rewrite G2, Hpu; f_equal; lia);
        try (rewrite G3, Hts; reflexivity).
    + destruct n as [|n].
      * cbn [repeat app play] in Hplay.
        destruct (offered ev (session w1)) eqn:Hoff1; [|discriminate].
        destruct (interact ev w1) as [w2| |] eqn:E1; try discriminate.
        injection Hplay as <-.
        destruct (step_cases w1 w2 ev (reachable_inv w1 Hr1) Hoff1 E1)
          as (_ & _ & Hcase).
        destruct ev; try congruence;
          try (unfold offered in Hoff1; rewrite Hpg1 in Hoff1; discriminate).
        destruct Hcase as (_ & row & F & E2 & E3 & E4).
        destruct F as (_ & F2 & _ & _ & _ & _ & F7 & _ & F9 & _).
        exists row. rewrite F2, F7, F9, Htd, Hct, Hpu.
        split; [reflexivity|]. split; [reflexivity|]. split; [lia|].
        left. repeat split; auto. congruence.
      * cbn [repeat app play] in Hplay. unfold offered in Hplay.
        rewrite Hpg1 in Hplay. discriminate.
Qed.

(** C4.  In a session, no pump of a trial changes [total_score] or the log.
    Finalizing an exploded trial (continue on the explosion page) appends a
    row with [exploded = 1] and [money_earned = 0] and leaves [total_score]
    as it was; finalizing by collect appends a row with [exploded = 0] and
    [money_earned] equal to the temporary score at that moment, which is
    [pumps * POINTS_PER_PUMP], and adds exactly that to [total_score].  Over a
    whole trial, any number of pumps followed by its finalization: after an
    explosion [total_score] is what it was before the pumps, after a collect
    it is that plus the row's [money_earned].  Every row of the log is of one
    of the two kinds. *)
Theorem trial_outcome_scoring (w : World) :
  reachable w ->
  (forall (ev : Event) (w' : World),
      offered ev (session w) = true ->
      interact ev w = Ok w' ->
      (ev = ClickPump ->
       page (session w) = p_game /\
       trial_data (session w') = trial_data (session w) /\
       total_score (session w') = total_score (session w) /\
       temp_score (session w') = temp_score (session w) + POINTS_PER_PUMP) /\
      (ev = ClickContinue ->
       page (session w) = p_explosion /\
       exists row,
         trial_data (session w') = trial_data (session w) ++ [row] /\
         TrialRow.exploded row = 1 /\
         TrialRow.money_earned row = 0 /\
         total_score (session w') = total_score (session w)) /\
      (ev = ClickCollect ->
       page (session w) = p_game /\
       exists row,
         trial_data (session w') = trial_data (session w) ++ [row] /\
         TrialRow.exploded row = 0 /\
         TrialRow.pumps row = pumps (session w) /\
         temp_score (session w) = pumps (session w) * POINTS_PER_PUMP /\
         TrialRow.money_earned row = temp_score (session w) /\
         total_score (session w')
         = total_score (session w) + TrialRow.money_earned row)) /\
  (forall (n : nat) (ev : Event) (w' : World),
      page (session w) = p_game ->
      ev <> ClickPump ->
      play (repeat ClickPump n ++ [ev]) w = Some w' ->
      exists row,
        trial_data (session w') = trial_data (session w) ++ [row] /\
        TrialRow.trial_number row = current_trial (session w) /\
        TrialRow.pumps row = pumps (session w) + Z.of_nat n /\
        (ev = ClickContinue /\
         TrialRow.exploded row = 1 /\
         TrialRow.money_earned row = 0 /\
         total_score (session w') = total_score (session w)
         \/
         ev = ClickCollect /\
         TrialRow.exploded row = 0 /\
         TrialRow.money_earned row
         = (pumps (session w) + Z.of_nat n) * POINTS_PER_PUMP /\
         total_score (session w')
         = total_score (session w) + TrialRow.money_earned row)) /\
  Forall (fun row =>
            TrialRow.exploded row = 1 /\ TrialRow.money_earned row = 0 \/
            TrialRow.exploded row = 0 /\
            TrialRow.money_earned row = TrialRow.pumps row * POINTS_PER_PUMP)
         (trial_data (session w)).
Proof.
  intros Hr. pose proof (reachable_inv w Hr) as HI.
  split; [|split].
  - intros ev w' Hoff Hstep.
    destruct (step_cases w w' ev HI Hoff Hstep) as (HI' & _ & Hcase).
    split; [|split].
    + intros ->. destruct Hcase as (Hpg & _).
      destruct (pump_step_page w w' Hr Hpg Hstep)
        as (_ & Htd & Hts & _ & _ & Htmp).
      auto.
    + intros ->. destruct Hcase as (Hpg & row & F & E1 & E2 & E3).
      split; [exact Hpg|]. exists row. repeat split; auto. apply F.
    + intros ->. destruct Hcase as (Hpg & row & F & E1 & E2 & E3).
      split; [exact Hpg|]. exists row.
      pose proof (inv_page _ HI) as Hpi. unfold page_inv in Hpi.
      rewrite Hpg in Hpi. destruct Hpi as [(_ & _ & Htmp & _) _].
      destruct F as (_ & F2 & _ & _ & _ & _ & _ & _ & F9 & _).
      repeat split; auto. rewrite E2. exact E3.
  - intros n ev w' Hpg Hev Hplay.
    apply (trial_run n w w' ev Hr Hpg Hplay Hev).
  - apply Forall_impl with (2 := inv_rows _ HI).
    intros row [_ [(E1 & E2 & _) | (E1 & E2 & _)]]; auto.
Qed.

Lemma trial_outcome_scoring_witness :
  exists row,
    trial_data (session yellow_burst_continued)
    = trial_data (session yellow_enrolled) ++ [row] /\
    TrialRow.exploded row = 1 /\
    TrialRow.money_earned row = 0 /\
    total_score (session yellow_burst_continued)
    = total_score (session yellow_enrolled).
Proof.
  destruct (trial_outcome_scoring yellow_enrolled) as (_ & Htrial & _).
  - apply world_after_reachable.
  - destruct (Htrial 1%nat ClickContinue yellow_burst_continued)
      as (row & Htd & _ & _ & [(_ & E1 & E2 & E3) | (E & _)]).
    + vm_compute. reflexivity.
    + discriminate.
    + vm_compute. reflexivity.
    + exists row. auto.
    + discriminate E.
Defined.

(** ** The export *)

Lemma log_wf_numbers (l : list TrialRow.t) (k acc : Z) :
  log_wf k acc l ->
  map TrialRow.trial_number l
  = map (fun i => k + Z.of_nat i) (seq 0 (List.length l)).
Proof.
  revert k acc. induction l as [|r l IH]; intros k acc Hwf; [reflexivity|].
  destruct Hwf as (H1 & _ & H3). cbn [map List.length seq].
  rewrite <- seq_shift, map_map, (IH _ _ H3). f_equal; [lia|].
  apply map_ext. intros i. lia.
Qed.

Lemma end_page_log_length (s : SessionState) :
  Inv s ->
  (page s = p_end <-> Z.of_nat (List.length (trial_data s)) = TOTAL_TRIALS).
Proof.
  intros HI. pose proof (inv_log_len _ HI) as Hlen.
  pose proof (inv_page _ HI) as Hpi. unfold page_inv, trial_on in Hpi.
  unfold TOTAL_TRIALS in *.
  destruct (page s); split; intros H; try discriminate; try reflexivity;
    try lia; try contradiction.
Qed.

(** C5.  When a session is complete (the end page), the rows handed to the
    export carry [trial_number] 1, 2, ..., TOTAL_TRIALS in this order, and the
    [total_money_after_trial] of the k-th row is the sum of [money_earned]
    over the first k rows. *)
Theorem export_numbered_with_running_total (w : World) :
  reachable w ->
  page (session w) = p_end ->
  map TrialRow.trial_number (trial_data (session w))
  = map Z.of_nat (seq 1 (Z.to_nat TOTAL_TRIALS)) /\
  forall (k : nat) (row : TrialRow.t),
    nth_error (trial_data (session w)) k = Some row ->
    TrialRow.total_money_after_trial row
    = sum_money (firstn (S k) (trial_data (session w))).
Proof.
  intros Hr Hpg. pose proof (reachable_inv w Hr) as HI.
  pose proof (proj1 (end_page_log_length _ HI) Hpg) as Hlen.
  pose proof (inv_log_wf _ HI) as Hwf. split.
  - rewrite (log_wf_numbers _ _ _ Hwf).
    replace (List.length (trial_data (session w))) with (Z.to_nat TOTAL_TRIALS)
      by lia.
    reflexivity.
  - intros k row Hk. destruct (log_wf_nth _ _ _ _ _ Hwf Hk) as [_ E].
    rewrite E. lia.
Qed.

Lemma export_numbered_with_running_total_witness :
  map TrialRow.trial_number (trial_data (session blue_session))
  = [1; 2; 3; 4; 5; 6; 7] /\
  map TrialRow.total_money_after_trial (trial_data (session blue_session))
  = [5; 10; 15; 20; 25; 30; 35].
Proof.
  destruct (export_numbered_with_running_total blue_session) as [E _].
  - apply world_after_reachable.
  - vm_compute. reflexivity.
  - split; [exact E | vm_compute; reflexivity].
Defined.

(** C6.  In a session, collect and continue (the two ways a trial is
    finalized) append exactly one row at the end of the log, the identity
    form and pump leave the log as it is, so rows already in the log are
    neither removed nor changed; and the session is on the end page exactly
    when the log holds TOTAL_TRIALS rows. *)
Theorem log_grows_by_one_per_finalization (w : World) :
  reachable w ->
  (page (session w) = p_end <->
   Z.of_nat (List.length (trial_data (session w))) = TOTAL_TRIALS) /\
  forall (ev : Event) (w' : World),
    offered ev (session w) = true ->
    interact ev w = Ok w' ->
    match ev with
    | ClickCollect | ClickContinue =>
        exists row, trial_data (session w') = trial_data (session w) ++ [row]
    | Submit _ _ _ | ClickPump =>
        trial_data (session w') = trial_data (session w)
    end.
Proof.
  intros Hr. pose proof (reachable_inv w Hr) as HI. split.
  - apply end_page_log_length, HI.
  - intros ev w' Hoff Hstep.
    destruct (step_cases w w' ev HI Hoff Hstep) as (_ & _ & Hcase).
    destruct ev; try (destruct Hcase as (_ & row & F & _); exists row; apply F);
      apply Hcase.
Qed.

Lemma log_grows_by_one_per_finalization_witness :
  page (session blue_session) = p_end /\
  List.length (trial_data (session blue_session)) = 7%nat.
Proof.
  destruct (log_grows_by_one_per_finalization blue_session) as [[H _] _].
  - apply world_after_reachable.
  - assert (Hp : page (session blue_session) = p_end)
      by (vm_compute; reflexivity).
    split; [exact Hp|]. specialize (H Hp). unfold TOTAL_TRIALS in H. lia.
Defined.

(** ** The colour sequence *)

(** Each element of [random.choices] is picked from the whole population by
    its own draw. *)
Lemma random_choices_picks {A : Type} (population : list A) (d : A) (k : nat)
      (g : RNG) :
  fst (random_choices population d k g)
  = map (fun i =>
           let n := List.length population in
           nth (floor_index
                  (PrimFloat.mul (floats g (cursor g + i))
                     (float_of_Z (Z.of_nat n))) n)
               population d)
        (seq 0 k).
Proof.
  revert g. induction k as [|k IH]; intros g; [reflexivity|].
  cbn [random_choices random]. specialize (IH (mkRNG (floats g) (S (cursor g)))).
  destruct (random_choices population d k _) as [rest g2].
  cbn [fst] in *. cbn [seq map]. rewrite Nat.add_0_r. f_equal.
  rewrite IH, <- seq_shift, map_map. apply map_ext. intros i.
  cbn [floats cursor]. now rewrite Nat.add_succ_r.
Qed.

Lemma pick_draw_for (c : Color) :
  nth (floor_index (PrimFloat.mul (draw_for c) (float_of_Z 3)) 3) colors Yellow
  = c.
Proof. destruct c; vm_compute; reflexivity. Qed.

(** Every sequence of seven colours is a possible outcome of the draw. *)
Lemma every_sequence_can_be_drawn (l : list Color) :
  List.length l = Z.to_nat TOTAL_TRIALS ->
  balloon_colors_sequence
    (session (initialize (mkRNG (fun i => draw_for (nth i l Yellow)) 0))) = l.
Proof.
  intros Hlen. rewrite initialize_session. cbn [balloon_colors_sequence].
  rewrite random_choices_picks. cbn [floats cursor Nat.add].
  change (List.length colors) with 3%nat. change (Z.of_nat 3) with 3.
  erewrite map_ext by (intros i; apply pick_draw_for).
  destruct l as [|c1 [|c2 [|c3 [|c4 [|c5 [|c6 [|c7 [|c8 l]]]]]]]];
    try discriminate Hlen.
  reflexivity.
Qed.

Lemma reachable_sequence (w : World) :
  reachable w ->
  exists g : RNG,
    balloon_colors_sequence (session w)
    = balloon_colors_sequence (session (initialize g)).
Proof.
  induction 1 as [g | w w' ev Hr [g IH] Hoff Hstep].
  - now exists g.
  - exists g. rewrite <- IH.
    destruct (step_cases w w' ev (reachable_inv w Hr) Hoff Hstep) as (_ & E & _).
    exact E.
Qed.

(** The generator across one interaction: the same numbers, the cursor
    moved by at most one. *)
Lemma step_generator (w w' : World) (ev : Event) :
  Inv (session w) ->
  offered ev (session w) = true ->
  interact ev w = Ok w' ->
  floats (rng w') = floats (rng w) /\
  (cursor (rng w) <= cursor (rng w'))%nat.
Proof.
  intros HI Hoff Hstep. unfold offered in Hoff.
  destruct ev as [name dept gid | | | ];
    destruct (page (session w)) eqn:Hpg; try discriminate.
  - destruct (submit_step w name dept gid HI Hpg) as (w1 & E & Hg & _).
    rewrite E in Hstep. injection Hstep as <-. rewrite Hg. auto.
  - destruct (pump_step w HI Hpg)
      as (w1 & _ & E & _ & _ & _ & _ & _ & _ & _ & _ & Hbr).
    rewrite E in Hstep. injection Hstep as <-.
    destruct (pumps (session w) + 1 >=? max_pumps_this_trial (session w)).
    + destruct Hbr as [_ ->]. auto.
    + destruct Hbr as [-> _]. cbn [random snd floats cursor]. auto.
  - apply negb_true_iff, Z.eqb_neq in Hoff.
    destruct (collect_step w HI Hpg Hoff) as (w1 & row & _ & E & Hg & _).
    rewrite E in Hstep. injection Hstep as <-. rewrite Hg. auto.
  - destruct (continue_step w HI Hpg) as (w1 & row & _ & E & Hg & _).
    rewrite E in Hstep. injection Hstep as <-. rewrite Hg. auto.
  - pose proof (inv_page _ HI) as Hp. unfold page_inv in Hp.
    now rewrite Hpg in Hp.
Qed.

(** Across any run of a session the colour sequence stays, the generator
    keeps its numbers and its cursor does not move back. *)
Lemma play_generator (evs : list Event) :
  forall w w' : World,
    reachable w ->
    play evs w = Some w' ->
    balloon_colors_sequence (session w') = balloon_colors_sequence (session w) /\
    floats (rng w') = floats (rng w) /\
    (cursor (rng w) <= cursor (rng w'))%nat.
Proof.
  induction evs as [|ev evs IH]; intros w w' Hr Hplay; cbn [play] in Hplay.
  - injection Hplay as <-. auto.
  - destruct (offered ev (session w)) eqn:Hoff; [|discriminate].
    destruct (interact ev w) as [w1| |] eqn:E; try discriminate.
    pose proof (reachable_inv w Hr) as HI.
    destruct (step_cases w w1 ev HI Hoff E) as (_ & Hseq & _).
    destruct (step_generator w w1 ev HI Hoff E) as [Hf Hc].
    destruct (IH w1 w' (reach_step w w1 ev Hr Hoff E) Hplay)
      as (Hseq' & Hf' & Hc').
    rewrite Hseq', Hseq, Hf', Hf. repeat split; auto. lia.
Qed.

Lemma play_app (evs : list Event) (ev : Event) :
  forall w : World,
    play (evs ++ [ev]) w
    = match play evs w with
      | Some w1 => play [ev] w1
      | None => None
      end.
Proof.
  induction evs as [|e evs IH]; intros w; [reflexivity|].
  cbn [app play]. destruct (offered e (session w)); [|reflexivity].
  destruct (interact e w); auto.
Qed.

(** Every world of a session is the outcome of a run from a first run of
    the script. *)
Lemma reachable_play (w : World) :
  reachable w ->
  exists (g : RNG) (evs : list Event), play evs (initialize g) = Some w.
Proof.
  induction 1 as [g | w w' ev _ (g & evs & IH) Hoff Hstep].
  - exists g, []. reflexivity.
  - exists g, (evs ++ [ev]). rewrite play_app, IH. cbn [play].
    now rewrite Hoff, Hstep.
Qed.

Lemma pick_colour_thirds (u : float) :
  pick_colour u
  = (if PrimFloat.leb 2 (PrimFloat.mul u 3)
     then if PrimFloat.leb 1 (PrimFloat.mul u 3) then Blue else Orange
     else if PrimFloat.leb 1 (PrimFloat.mul u 3) then Orange else Yellow).
Proof.
  unfold pick_colour, floor_index. cbn [Nat.sub seq filter].
  change (float_of_Z 3) with 3%float.
  change (float_of_Z (Z.of_nat 1)) with 1%float.
  change (float_of_Z (Z.of_nat 2)) with 2%float.
  destruct (PrimFloat.leb 1 (PrimFloat.mul u 3)),
    (PrimFloat.leb 2 (PrimFloat.mul u 3)); reflexivity.
Qed.

(** C7.  Every state of a session comes from a first run of the script on
    some generator, and for any such run: the colour sequence is the one set
    at initialization, namely [TOTAL_TRIALS] picks from the three colours
    made by the first [TOTAL_TRIALS] numbers of that generator, one number a
    pick, each pick from the whole population (with replacement); those
    numbers are consumed, so that the session's later draws are other
    numbers of the same generator.  A pick is [Yellow], [Orange] or [Blue]
    as [u * 3] is below 1, from 1 to below 2, or from 2: on the [2^53]
    values [random.random()] returns, the changes fall at the thirds of the
    range.  The sequence has [TOTAL_TRIALS] elements and any sequence of that
    length can come out; no action of the session changes it; while a trial
    is on, the ceiling in the store is that of the colour at index
    [current_trial - 1]; and the row of trial number [k] carries the colour
    at index [k - 1]. *)
Theorem colour_sequence_fixed_and_indexed (w : World) :
  reachable w ->
  (exists (g : RNG) (evs : list Event), play evs (initialize g) = Some w) /\
  (forall (g : RNG) (evs : list Event),
      play evs (initialize g) = Some w ->
      balloon_colors_sequence (session w)
      = balloon_colors_sequence (session (initialize g)) /\
      balloon_colors_sequence (session w)
      = map (fun i =>
               nth (floor_index
                      (PrimFloat.mul (floats g (cursor g + i)) (float_of_Z 3)) 3)
                   colors Yellow)
            (seq 0 (Z.to_nat TOTAL_TRIALS)) /\
      balloon_colors_sequence (session w)
      = map (fun i => pick_colour (floats g (cursor g + i)))
            (seq 0 (Z.to_nat TOTAL_TRIALS)) /\
      floats (rng w) = floats g /\
      (cursor g + Z.to_nat TOTAL_TRIALS <= cursor (rng w))%nat) /\
  (forall u : float,
      pick_colour u
      = (if PrimFloat.leb 2 (PrimFloat.mul u 3)
         then if PrimFloat.leb 1 (PrimFloat.mul u 3) then Blue else Orange
         else if PrimFloat.leb 1 (PrimFloat.mul u 3) then Orange else Yellow)) /\
  (pick_colour (grid 0) = Yellow /\
   pick_colour (grid 3002399751580330) = Yellow /\
   pick_colour (grid 3002399751580331) = Orange /\
   pick_colour (grid 6004799503160660) = Orange /\
   pick_colour (grid 6004799503160661) = Blue /\
   pick_colour (grid (2 ^ 53 - 1)) = Blue) /\
  Z.of_nat (List.length (balloon_colors_sequence (session w))) = TOTAL_TRIALS /\
  (forall l : list Color,
      List.length l = Z.to_nat TOTAL_TRIALS ->
      exists g : RNG, balloon_colors_sequence (session (initialize g)) = l) /\
  (forall (ev : Event) (w' : World),
      offered ev (session w) = true ->
      interact ev w = Ok w' ->
      balloon_colors_sequence (session w')
      = balloon_colors_sequence (session w)) /\
  (page (session w) = p_game \/ page (session w) = p_explosion ->
   1 <= current_trial (session w) <= TOTAL_TRIALS /\
   exists c,
     py_index (balloon_colors_sequence (session w))
       (current_trial (session w) - 1) = Some c /\
     max_pumps_this_trial (session w) = MAX_PUMPS_MAP c) /\
  (forall (i : nat) (row : TrialRow.t),
      nth_error (trial_data (session w)) i = Some row ->
      TrialRow.trial_number row = Z.of_nat i + 1 /\
      py_index (balloon_colors_sequence (session w))
        (TrialRow.trial_number row - 1)
      = Some (TrialRow.balloon_color row)).
Proof.
  intros Hr. pose proof (reachable_inv w Hr) as HI.
  split; [apply reachable_play, Hr|].
  split; [|split; [apply pick_colour_thirds|]].
  { intros g evs Hplay.
    destruct (play_generator evs (initialize g) w (reach_init g) Hplay)
      as (Hseq & Hf & Hc).
    assert (Hpicks :
              balloon_colors_sequence (session (initialize g))
              = map (fun i =>
                       nth (floor_index
                              (PrimFloat.mul (floats g (cursor g + i))
                                 (float_of_Z 3)) 3)
                           colors Yellow)
                    (seq 0 (Z.to_nat TOTAL_TRIALS))).
    { rewrite initialize_session. cbn [balloon_colors_sequence].
      apply random_choices_picks. }
    assert (Hrng : rng (initialize g)
                   = mkRNG (floats g) (cursor g + Z.to_nat TOTAL_TRIALS)).
    { unfold initialize.
      pose proof (random_choices_rng colors Yellow (Z.to_nat TOTAL_TRIALS) g)
        as H.
      destruct (random_choices colors Yellow (Z.to_nat TOTAL_TRIALS) g).
      exact H. }
    rewrite Hrng in Hf, Hc. cbn [floats cursor] in Hf, Hc.
    split; [exact Hseq|]. split; [now rewrite Hseq|].
    split; [rewrite Hseq, Hpicks; reflexivity|]. auto. }
  split; [repeat split; vm_compute; reflexivity|].
  split; [|split; [|split; [|split]]].
  - apply seq_len_Z, HI.
  - intros l Hl. eexists. apply every_sequence_can_be_drawn, Hl.
  - intros ev w' Hoff Hstep.
    destruct (step_cases w w' ev HI Hoff Hstep) as (_ & E & _). exact E.
  - intros Hpg. pose proof (inv_page _ HI) as Hpi. unfold page_inv in Hpi.
    destruct Hpg as [Hpg|Hpg]; rewrite Hpg in Hpi;
      destruct Hpi as [(Hct & Hc & _) _]; auto.
  - intros i row Hi.
    destruct (log_wf_nth _ _ _ _ _ (inv_log_wf _ HI) Hi) as [E _].
    split; [lia|].
    pose proof (inv_rows _ HI) as Hrows. rewrite Forall_forall in Hrows.
    apply (Hrows row (nth_error_In _ _ Hi)).
Qed.

Lemma colour_sequence_fixed_and_indexed_witness :
  balloon_colors_sequence (session yellow_burst_continued)
  = map (fun i => pick_colour (floats (two_phase_rng 0.25 0) i))
        (seq 0 (Z.to_nat TOTAL_TRIALS)) /\
  map TrialRow.balloon_color (trial_data (session yellow_burst_continued))
  = [Yellow].
Proof.
  destruct (colour_sequence_fixed_and_indexed yellow_burst_continued)
    as (_ & Htie & _).
  - apply world_after_reachable.
  - destruct (Htie (two_phase_rng 0.25 0) [enrol; ClickPump; ClickContinue])
      as (_ & _ & Hpick & _).
    + vm_compute. reflexivity.
    + split; [exact Hpick | vm_compute; reflexivity].
Defined.

(** ** Operations on an ended trial *)




(** ** The game identifier *)

(** C9 on the identifier [a<TAB>b]: [strip] has nothing to remove at the
    ends, [replace] only rewrites the space character, so the identifier is
    stored with its tab and the export file name contains it. *)
Theorem game_id_keeps_inner_tab :
  sanitize_game_id tabbed_id = tabbed_id /\
  has_whitespace (sanitize_game_id tabbed_id) = true /\
  game_id (session (world_after [Submit "Ann" "Economics" tabbed_id]
                      (two_phase_rng 0.25 0.75)))
  = Some tabbed_id /\
  has_whitespace (csv_filename (sanitize_game_id tabbed_id)) = true.
Proof. repeat split; vm_compute; reflexivity. Qed.

(** What the sanitizing does achieve: no space character is left. *)
Lemma sanitize_game_id_no_space (gid : string) :
  existsb (Ascii.eqb " "%char) (list_ascii_of_string (sanitize_game_id gid))
  = false.
Proof.
  unfold sanitize_game_id. generalize (strip gid) as s.
  induction s as [|c s IH]; [reflexivity|].
  cbn [replace list_ascii_of_string existsb]. rewrite IH, orb_false_r.
  destruct (Ascii.eqb c " ") eqn:E; [reflexivity|].
  rewrite Ascii.eqb_sym. exact E.
Qed.

(** ** Indexing the colour sequence *)

(** C10.  In a session, whenever the page is one that indexes the colour
    sequence by the current trial (the active-trial page, the explosion
    pages), [1 <= current_trial <= TOTAL_TRIALS], the sequence has
    TOTAL_TRIALS elements, and the lookup at [current_trial - 1] returns a
    colour by a non-negative index; rendering the page raises nothing, and
    neither does any action on the screen, trial finalization included. *)
Theorem current_trial_within_sequence (w : World) :
  reachable w ->
  Z.of_nat (List.length (balloon_colors_sequence (session w))) = TOTAL_TRIALS /\
  (page (session w) = p_game \/ page (session w) = p_explosion \/
   page (session w) = p_game_over_explosion ->
   1 <= current_trial (session w) <= TOTAL_TRIALS /\
   exists c,
     py_index (balloon_colors_sequence (session w))
       (current_trial (session w) - 1) = Some c /\
     nth_error (balloon_colors_sequence (session w))
       (Z.to_nat (current_trial (session w) - 1)) = Some c) /\
  main w = Ok w /\
  (forall ev : Event,
      offered ev (session w) = true -> exists w', interact ev w = Ok w').
Proof.
  intros Hr. pose proof (reachable_inv w Hr) as HI.
  pose proof (inv_page _ HI) as Hpi. unfold page_inv in Hpi.
  pose proof (seq_len_Z _ HI) as Hlen.
  assert (Hlook :
            page (session w) = p_game \/ page (session w) = p_explosion \/
            page (session w) = p_game_over_explosion ->
            1 <= current_trial (session w) <= TOTAL_TRIALS /\
            exists c,
              py_index (balloon_colors_sequence (session w))
                (current_trial (session w) - 1) = Some c).
  { intros [Hpg | [Hpg | Hpg]]; rewrite Hpg in Hpi; try contradiction;
      destruct Hpi as [(Hct & (c & Hc & _) & _) _]; split; auto; now exists c. }
  split; [exact Hlen|]. split; [|split].
  - intros Hpg. destruct (Hlook Hpg) as (Hct & c & Hc). split; [exact Hct|].
    exists c. split; [exact Hc|]. unfold py_index in Hc.
    replace (0 <=? current_trial (session w) - 1) with true in Hc
      by (symmetry; apply Z.leb_le; lia).
    replace (current_trial (session w) - 1
             <? Z.of_nat (List.length (balloon_colors_sequence (session w))))
      with true in Hc by (symmetry; apply Z.ltb_lt; lia).
    exact Hc.
  - unfold main, game_page, explosion_page, end_page.
    destruct (page (session w)) eqn:Hpg; try reflexivity; try contradiction.
    + destruct (Hlook (or_introl eq_refl)) as (_ & c & ->). reflexivity.
    + destruct (Hlook (or_intror (or_introl eq_refl))) as (_ & c & ->).
      reflexivity.
    + destruct Hpi as [_ Hg]. destruct (game_id (session w)); congruence.
  - intros ev Hoff. destruct (interact_inv w ev HI Hoff) as (w' & E & _).
    now exists w'.
Qed.

Lemma current_trial_within_sequence_witness :
  current_trial (session yellow_second_at_seven) = 2 /\
  main yellow_second_at_seven = Ok yellow_second_at_seven.
Proof.
  destruct (current_trial_within_sequence yellow_second_at_seven)
    as (_ & _ & Hmain & _).
  - apply world_after_reachable.
  - split; [vm_compute; reflexivity | exact Hmain].
Defined.

(** [reset_game] starts a session of its own. *)
Remark reset_game_reachable (w : World) : reachable (reset_game w).
Proof. apply reach_init. Qed.

(** * Further properties of the handlers *)

(** ** Indexing *)

Lemma py_index_None_iff {A : Type} (l : list A) (i : Z) :
  py_index l i = None <->
  i < - Z.of_nat (List.length l) \/ Z.of_nat (List.length l) <= i.
Proof.
  unfold py_index.
  destruct (Z.leb_spec 0 i), (Z.ltb_spec i (Z.of_nat (List.length l))),
    (Z.leb_spec (- Z.of_nat (List.length l)) i), (Z.ltb_spec i 0);
    cbn [andb]; try lia; try (split; [lia | reflexivity]);
    (split; [|lia]); intros Hn; apply nth_error_None in Hn; lia.
Qed.

Lemma py_index_negative {A : Type} (l : list A) (i : Z) :
  - Z.of_nat (List.length l) <= i < 0 ->
  py_index l i = nth_error l (Z.to_nat (i + Z.of_nat (List.length l))).
Proof.
  intros Hi. unfold py_index.
  destruct (Z.leb_spec 0 i); [lia|]. cbn [andb].
  destruct (Z.leb_spec (- Z.of_nat (List.length l)) i); [|lia].
  destruct (Z.ltb_spec i 0); [|lia]. reflexivity.
Qed.

Lemma py_index_Some_range {A : Type} (l : list A) (i : Z) (x : A) :
  py_index l i = Some x ->
  - Z.of_nat (List.length l) <= i < Z.of_nat (List.length l).
Proof.
  intros H.
  destruct (Z_lt_ge_dec i (- Z.of_nat (List.length l))) as [Hlo|Hlo];
    [rewrite (proj2 (py_index_None_iff l i)) in H by lia; discriminate|].
  destruct (Z_lt_ge_dec i (Z.of_nat (List.length l))) as [Hhi|Hhi];
    [lia|].
  rewrite (proj2 (py_index_None_iff l i)) in H by lia. discriminate.
Qed.

(** ** [setup_new_trial] *)

(** [setup_new_trial] by the value of the trial counter: past the last trial
    it does nothing; from 1 to the length of the sequence it installs the
    ceiling of the colour at [current_trial - 1]; from [1 - len] to 0 the
    index is negative and Python counts from the end of the sequence;
    anywhere else (and not past the last trial) it raises IndexError and
    writes nothing. *)
Theorem setup_new_trial_by_counter (w : World) :
  let s := session w in
  let n := Z.of_nat (List.length (balloon_colors_sequence s)) in
  (TOTAL_TRIALS < current_trial s -> setup_new_trial w = Ok w) /\
  (current_trial s <= TOTAL_TRIALS -> 1 <= current_trial s <= n ->
   exists c,
     nth_error (balloon_colors_sequence s) (Z.to_nat (current_trial s - 1))
     = Some c /\
     setup_new_trial w = Ok (upd (set_max_pumps_this_trial (MAX_PUMPS_MAP c)) w)) /\
  (current_trial s <= TOTAL_TRIALS -> 1 - n <= current_trial s <= 0 ->
   exists c,
     nth_error (balloon_colors_sequence s)
       (Z.to_nat (n + current_trial s - 1)) = Some c /\
     setup_new_trial w = Ok (upd (set_max_pumps_this_trial (MAX_PUMPS_MAP c)) w)) /\
  (current_trial s <= TOTAL_TRIALS ->
   current_trial s < 1 - n \/ n < current_trial s ->
   setup_new_trial w = Raise IndexError w).
Proof.
  cbv zeta. unfold setup_new_trial.
  set (s := session w). set (sq := balloon_colors_sequence s).
  split; [|split; [|split]].
  - intros H. destruct (Z.leb_spec (current_trial s) TOTAL_TRIALS); [lia|].
    reflexivity.
  - intros H Hr. destruct (Z.leb_spec (current_trial s) TOTAL_TRIALS); [|lia].
    destruct (py_index_in_range sq (current_trial s) Hr) as [c Hc].
    exists c. rewrite Hc. split; [|reflexivity].
    unfold py_index in Hc.
    destruct (Z.leb_spec 0 (current_trial s - 1)); [|lia].
    destruct (Z.ltb_spec (current_trial s - 1) (Z.of_nat (List.length sq)));
      [|lia].
    exact Hc.
  - intros H Hr. destruct (Z.leb_spec (current_trial s) TOTAL_TRIALS); [|lia].
    rewrite py_index_negative by lia.
    replace (current_trial s - 1 + Z.of_nat (List.length sq))
      with (Z.of_nat (List.length sq) + current_trial s - 1) by lia.
    destruct (nth_error sq
                (Z.to_nat (Z.of_nat (List.length sq) + current_trial s - 1)))
      as [c|] eqn:E.
    + exists c. split; reflexivity.
    + apply nth_error_None in E. lia.
  - intros H Hr. destruct (Z.leb_spec (current_trial s) TOTAL_TRIALS); [|lia].
    rewrite (proj2 (py_index_None_iff sq (current_trial s - 1))) by lia.
    reflexivity.
Qed.

Lemma setup_new_trial_by_counter_witness :
  balloon_colors_sequence (session rewound_world)
  = [Blue; Blue; Blue; Blue; Blue; Blue; Yellow] /\
  setup_new_trial rewound_world
  = Ok (upd (set_max_pumps_this_trial (MAX_PUMPS_MAP Yellow)) rewound_world).
Proof.
  destruct (setup_new_trial_by_counter rewound_world) as (_ & _ & H & _).
  destruct H as (c & Hc & E).
  - vm_compute. discriminate.
  - vm_compute. split; discriminate.
  - split; [vm_compute; reflexivity|]. rewrite E.
    vm_compute in Hc. injection Hc as <-. reflexivity.
Defined.

(** ** [next_trial] *)

(** Evaluation of the store updates, innermost first. *)
Ltac store_cbv :=
  cbv beta iota zeta delta
    [upd set_page set_trial_data set_total_score set_current_trial
     set_temp_score set_pumps set_max_pumps_this_trial set_identity
     set_balloon_size session rng page trial_data total_score current_trial
     temp_score pumps balloon_colors_sequence max_pumps_this_trial
     participant_name department game_id balloon_size bind identity
     is_exploded] in *.

Lemma next_trial_index_error (w : World) :
  py_index (balloon_colors_sequence (session w)) (current_trial (session w) - 1)
  = None ->
  next_trial w = Raise IndexError w.
Proof. intros H. unfold next_trial. rewrite H. reflexivity. Qed.

(** [next_trial] where every key it reads is present and the index is in
    range: the row it appends and the store it leaves. *)
Lemma next_trial_closed (w : World) (c : Color) (name dept gid : string) :
  List.length (balloon_colors_sequence (session w)) = Z.to_nat TOTAL_TRIALS ->
  py_index (balloon_colors_sequence (session w)) (current_trial (session w) - 1)
  = Some c ->
  participant_name (session w) = Some name ->
  department (session w) = Some dept ->
  game_id (session w) = Some gid ->
  exists w',
    next_trial w = Ok w' /\
    rng w' = rng w /\
    trial_data (session w')
    = trial_data (session w)
        ++ [TrialRow.mk name dept gid (current_trial (session w)) c
              (pumps (session w)) (is_exploded (session w))
              (if is_exploded (session w) =? 0 then temp_score (session w)
               else 0)
              (total_score (session w))] /\
    total_score (session w') = total_score (session w) /\
    current_trial (session w') = current_trial (session w) + 1 /\
    pumps (session w') = 0 /\
    temp_score (session w') = 0 /\
    balloon_colors_sequence (session w') = balloon_colors_sequence (session w) /\
    identity (session w') = identity (session w) /\
    page (session w')
    = (if current_trial (session w) + 1 >? TOTAL_TRIALS then p_end else p_game).
Proof.
  destruct w as [[pg td ts ct tmp pu sq mx pn dp gi bs] g].
  store_cbv. intros Hlen Hc -> -> ->.
  pose proof (py_index_Some_range _ _ _ Hc) as Hr. rewrite Hlen in Hr.
  unfold next_trial. store_cbv. rewrite Hc.
  destruct (ct + 1 >? TOTAL_TRIALS) eqn:Eb.
  - eexists. split; [reflexivity|]. store_cbv. repeat split.
  - assert (Hle : ct + 1 <= TOTAL_TRIALS).
    { destruct (Z.leb_spec (ct + 1) TOTAL_TRIALS); [assumption|].
      assert ((ct + 1 >? TOTAL_TRIALS) = true) by (apply Z.gtb_lt; lia).
      congruence. }
    unfold setup_new_trial. store_cbv.
    destruct (Z.leb_spec (ct + 1) TOTAL_TRIALS); [|lia].
    destruct (py_index sq (ct + 1 - 1)) as [c'|] eqn:Ec'.
    + eexists. split; [reflexivity|]. store_cbv. repeat split.
    + apply py_index_None_iff in Ec'. rewrite Hlen in Ec'.
      unfold TOTAL_TRIALS in *. lia.
Qed.



(** On the end page of a session the trial counter is past the last trial
    and the per-trial counters are back to zero. *)
Lemma end_page_store (w : World) :
  reachable w ->
  page (session w) = p_end ->
  current_trial (session w) = TOTAL_TRIALS + 1 /\
  pumps (session w) = 0 /\ temp_score (session w) = 0.
Proof.
  induction 1 as [g | w w' ev Hr IH Hoff Hstep]; intros Hpg.
  - rewrite initialize_session in Hpg. discriminate Hpg.
  - pose proof (reachable_inv w Hr) as HI.
    destruct (step_cases w w' ev HI Hoff Hstep) as (HI' & _ & Hcase).
    pose proof (inv_page _ HI') as Hpi'. unfold page_inv in Hpi'.
    rewrite Hpg in Hpi'. destruct Hpi' as [Hct' _].
    pose proof (inv_page _ HI) as Hpi. unfold page_inv, trial_on in Hpi.
    destruct ev.
    + destruct Hcase as (Hp & _ & _ & Hct). rewrite Hp in Hpi.
      unfold TOTAL_TRIALS in *. lia.
    + destruct Hcase as (Hp & _ & _ & Hct). rewrite Hp in Hpi.
      unfold TOTAL_TRIALS in *. lia.
    + destruct Hcase as (_ & row & F & _).
      destruct F as (_ & _ & _ & Hpu & Htmp & _). auto.
    + destruct Hcase as (_ & row & F & _).
      destruct F as (_ & _ & _ & Hpu & Htmp & _). auto.
Qed.

(** Once a session is complete, a further finalization is refused: both
    [next_trial] and [handle_collect] raise IndexError (the trial counter is
    8, one past the sequence) and leave the store as it was. *)
Theorem finalizing_after_the_end_raises (w : World) :
  reachable w ->
  page (session w) = p_end ->
  next_trial w = Raise IndexError w /\
  handle_collect w = Raise IndexError w.
Proof.
  intros Hr Hpg. pose proof (reachable_inv w Hr) as HI.
  destruct (end_page_store w Hr Hpg) as (Hct & _ & Htmp).
  pose proof (seq_len_Z _ HI) as Hlen.
  assert (Hnone : py_index (balloon_colors_sequence (session w))
                    (current_trial (session w) - 1) = None)
    by (apply py_index_None_iff; unfold TOTAL_TRIALS in *; lia).
  split; [apply next_trial_index_error, Hnone|].
  unfold handle_collect. rewrite next_trial_index_error.
  - f_equal. destruct w as [[pg td ts ct tmp pu sq mx pn dp gi bs] g].
    store_cbv. subst tmp. now rewrite Z.add_0_r.
  - destruct w as [[pg td ts ct tmp pu sq mx pn dp gi bs] g].
    store_cbv. exact Hnone.
Qed.

Lemma finalizing_after_the_end_raises_witness :
  next_trial blue_session = Raise IndexError blue_session.
Proof.
  destruct (finalizing_after_the_end_raises blue_session) as [H _].
  - apply world_after_reachable.
  - vm_compute. reflexivity.
  - exact H.
Defined.

(** ** [handle_pump] *)

(** [handle_pump] with a ceiling installed: what it returns and what it
    leaves alone. *)
Lemma handle_pump_returns (w : World) :
  max_pumps_this_trial (session w) <> 0 ->
  exists w',
    handle_pump w = Ok w' /\
    pumps (session w') = pumps (session w) + 1 /\
    temp_score (session w') = temp_score (session w) + POINTS_PER_PUMP /\
    balloon_size (session w') = Some (150 + pumps (session w') * 5) /\
    (page (session w') = page (session w) \/
     page (session w') = p_explosion) /\
    trial_data (session w') = trial_data (session w) /\
    total_score (session w') = total_score (session w) /\
    current_trial (session w') = current_trial (session w) /\
    balloon_colors_sequence (session w') = balloon_colors_sequence (session w) /\
    max_pumps_this_trial (session w') = max_pumps_this_trial (session w) /\
    identity (session w') = identity (session w).
Proof.
  intros Hmx. destruct w as [s g]. cbn [session].
  destruct (Z_le_gt_dec (max_pumps_this_trial s) (pumps s + 1)) as [Hge|Hlt].
  - eexists. split; [apply handle_pump_forced; assumption|].
    unfold identity. store. repeat split; auto.
  - eexists. split; [apply handle_pump_draw; [assumption | lia]|].
    unfold identity. store. repeat split; auto.
    destruct (PrimFloat.ltb _ _); auto.
Qed.

(** Once a ceiling is installed, [handle_pump] always returns: it counts the
    pump, adds [POINTS_PER_PUMP] to the temporary score, records the balloon
    size, either keeps the page or moves it to [explosion], and touches
    neither the log, the total, the trial counter, the colour sequence, the
    ceiling nor the identity. *)
Theorem handle_pump_frame (w : World) :
  max_pumps_this_trial (session w) <> 0 ->
  exists w',
    handle_pump w = Ok w' /\
    pumps (session w') = pumps (session w) + 1 /\
    temp_score (session w') = temp_score (session w) + POINTS_PER_PUMP /\
    balloon_size (session w') = Some (150 + pumps (session w') * 5) /\
    (page (session w') = page (session w) \/
     page (session w') = p_explosion) /\
    trial_data (session w') = trial_data (session w) /\
    total_score (session w') = total_score (session w) /\
    current_trial (session w') = current_trial (session w) /\
    balloon_colors_sequence (session w') = balloon_colors_sequence (session w) /\
    max_pumps_this_trial (session w') = max_pumps_this_trial (session w) /\
    identity (session w') = identity (session w).
Proof. exact (handle_pump_returns w). Qed.

Lemma handle_pump_frame_witness :
  exists w',
    handle_pump yellow_burst = Ok w' /\
    trial_data (session w') = trial_data (session yellow_burst) /\
    pumps (session w') = pumps (session yellow_burst) + 1.
Proof.
  destruct (handle_pump_frame yellow_burst)
    as (w' & E & Hp & _ & _ & _ & Htd & _).
  - vm_compute. discriminate.
  - exists w'. auto.
Defined.

(** With no ceiling installed ([max_pumps_this_trial = 0]), [handle_pump]
    first runs [setup_new_trial]: at a valid trial number it pumps against
    the ceiling of the current colour; at an index outside the sequence it
    raises IndexError before counting anything; past the last trial no
    ceiling is installed and the pump bursts the balloon at once (for a pump
    count that is not negative). *)
Theorem handle_pump_installs_ceiling (w : World) :
  max_pumps_this_trial (session w) = 0 ->
  (forall c,
      current_trial (session w) <= TOTAL_TRIALS ->
      py_index (balloon_colors_sequence (session w))
        (current_trial (session w) - 1) = Some c ->
      handle_pump w
      = handle_pump (upd (set_max_pumps_this_trial (MAX_PUMPS_MAP c)) w) /\
      exists w',
        handle_pump w = Ok w' /\
        max_pumps_this_trial (session w') = MAX_PUMPS_MAP c /\
        pumps (session w') = pumps (session w) + 1) /\
  (current_trial (session w) <= TOTAL_TRIALS ->
   py_index (balloon_colors_sequence (session w))
     (current_trial (session w) - 1) = None ->
   handle_pump w = Raise IndexError w) /\
  (TOTAL_TRIALS < current_trial (session w) ->
   0 <= pumps (session w) + 1 ->
   exists w',
     handle_pump w = Ok w' /\
     page (session w') = p_explosion /\
     max_pumps_this_trial (session w') = 0 /\
     rng w' = rng w).
Proof.
  intros Hmx. split; [|split].
  - intros c Hct Hc.
    assert (E : handle_pump w
                = handle_pump (upd (set_max_pumps_this_trial (MAX_PUMPS_MAP c)) w)).
    { unfold handle_pump at 1. rewrite Hmx. cbn [Z.eqb].
      unfold setup_new_trial.
      destruct (Z.leb_spec (current_trial (session w)) TOTAL_TRIALS); [|lia].
      rewrite Hc. cbn [bind].
      unfold handle_pump. store.
      pose proof (MAX_PUMPS_MAP_range c) as Hr.
      destruct (Z.eqb_spec (MAX_PUMPS_MAP c) 0); [lia|]. reflexivity. }
    split; [exact E|]. rewrite E.
    destruct (handle_pump_returns
                (upd (set_max_pumps_this_trial (MAX_PUMPS_MAP c)) w))
      as (w' & E' & Hp & _ & _ & _ & _ & _ & _ & _ & Hm & _).
    { store. pose proof (MAX_PUMPS_MAP_range c). lia. }
    exists w'. store. auto.
  - intros Hct Hc. unfold handle_pump. rewrite Hmx. cbn [Z.eqb].
    unfold setup_new_trial.
    destruct (Z.leb_spec (current_trial (session w)) TOTAL_TRIALS); [|lia].
    rewrite Hc. reflexivity.
  - intros Hct Hpu. unfold handle_pump. rewrite Hmx. cbn [Z.eqb].
    unfold setup_new_trial.
    destruct (Z.leb_spec (current_trial (session w)) TOTAL_TRIALS); [lia|].
    store. rewrite Hmx.
    replace (pumps (session w) + 1 >=? 0) with true
      by (symmetry; apply Z.geb_le; lia).
    eexists. split; [reflexivity|]. store. auto.
Qed.

Lemma handle_pump_installs_ceiling_witness :
  exists w',
    handle_pump fresh_world = Ok w' /\
    max_pumps_this_trial (session w') = MAX_PUMPS_MAP Yellow /\
    pumps (session w') = 1.
Proof.
  destruct (handle_pump_installs_ceiling fresh_world) as (H & _).
  - vm_compute. reflexivity.
  - destruct (H Yellow) as (_ & w' & E & Hm & Hp).
    + vm_compute. discriminate.
    + vm_compute. reflexivity.
    + exists w'. split; [exact E|]. split; [exact Hm|].
      rewrite Hp. vm_compute. reflexivity.
Defined.

(** ** [main] and the page functions *)

(** Rendering never writes: for any store, [main] returns it or raises on
    it unchanged, and never asks for another run, so running the script is
    running [main] once; the assignment of [game_over_explosion] in
    [game_page] is never executed, and no session is ever on that page. *)
Theorem main_never_writes :
  (forall w : World, main w = Ok w \/ exists e, main w = Raise e w) /\
  (forall (fuel : nat) (w : World), script fuel w = main w) /\
  (forall w : World,
      reachable w -> page (session w) <> p_game_over_explosion).
Proof.
  assert (Hmain : forall w, main w = Ok w \/ exists e, main w = Raise e w).
  { intros w. unfold main, game_page, explosion_page, end_page.
    destruct (page (session w)) eqn:Hpg; auto;
      try (destruct (py_index _ _); [left | right; eexists]; reflexivity).
    destruct (game_id (session w)); [left | right; eexists]; reflexivity. }
  split; [exact Hmain|]. split.
  - intros fuel w. destruct fuel; cbn [script];
      destruct (Hmain w) as [E | [e E]]; rewrite E; reflexivity.
  - intros w Hr Hpg. pose proof (inv_page _ (reachable_inv w Hr)) as Hpi.
    unfold page_inv in Hpi. now rewrite Hpg in Hpi.
Qed.

(** What submitting the form does on the start page of a session. *)
Lemma submit_closed (w : World) (name dept gid : string) :
  Inv (session w) ->
  page (session w) = p_start ->
  (form_valid name dept gid = false ->
   interact (Submit name dept gid) w = Ok w) /\
  (form_valid name dept gid = true ->
   exists c,
     py_index (balloon_colors_sequence (session w)) 0 = Some c /\
     interact (Submit name dept gid) w
     = Ok (upd (set_page p_game)
             (upd (set_max_pumps_this_trial (MAX_PUMPS_MAP c))
                (upd (set_identity name dept (sanitize_game_id gid)) w)))).
Proof.
  destruct w as [[pg td ts ct tmp pu sq mx pn dp gi bs] g].
  intros [H1 H2 H3 H4 H5 H6] Hpg. store. subst pg.
  unfold page_inv in H6. store. destruct H6 as (Hct & Hpu & Htmp). subst ct.
  unfold interact, handler, start_page_submitted, form_valid.
  destruct ((name =? "")%string || (dept =? "Select Department")%string
            || (gid =? "")%string); cbn [negb]; split; try discriminate.
  - intros _. reflexivity.
  - intros _. unfold setup_new_trial. store.
    change (1 <=? TOTAL_TRIALS) with true. cbv iota.
    destruct (py_index_in_range sq 1) as [c Hc].
    { rewrite H1. unfold TOTAL_TRIALS. simpl. lia. }
    change (1 - 1) with 0 in *. exists c. split; [exact Hc|].
    rewrite Hc. store. unfold script, main, game_page. store.
    change (1 - 1) with 0. rewrite Hc. reflexivity.
Qed.

(** ** Progress of a session *)

Lemma remaining_range (s : SessionState) :
  Inv s ->
  0 <= remaining s <= 463 /\ (page s = p_end <-> remaining s = 0).
Proof.
  intros HI. pose proof (inv_page _ HI) as Hpi.
  unfold page_inv, trial_on, remaining, TOTAL_TRIALS in *.
  destruct (page s); try contradiction.
  - split; [lia|]. split; [discriminate | lia].
  - destruct Hpi as [(Hct & (c & _ & Hmx) & _) Hpu].
    pose proof (MAX_PUMPS_MAP_range c). split; [lia|].
    split; [discriminate | lia].
  - destruct Hpi as [(Hct & (c & _ & Hmx) & _) Hpu].
    split; [lia|]. split; [discriminate | lia].
  - split; [lia|]. split; reflexivity.
Qed.

(** One action of a session and [remaining]. *)
Lemma step_remaining (w w' : World) (ev : Event) :
  reachable w ->
  offered ev (session w) = true ->
  interact ev w = Ok w' ->
  if effective ev then remaining (session w') < remaining (session w)
  else w' = w.
Proof.
  intros Hr Hoff Hstep. pose proof (reachable_inv w Hr) as HI.
  destruct (step_cases w w' ev HI Hoff Hstep) as (HI' & _ & Hcase).
  pose proof (inv_page _ HI) as Hpi. pose proof (inv_page _ HI') as Hpi'.
  unfold page_inv, trial_on in Hpi, Hpi'.
  destruct ev as [name dept gid | | |]; cbn [effective].
  - destruct Hcase as (Hpg & _).
    destruct (submit_closed w name dept gid HI Hpg) as [Hno Hyes].
    fold (form_valid name dept gid).
    destruct (form_valid name dept gid).
    + destruct (Hyes eq_refl) as (c & _ & E).
      rewrite E in Hstep. injection Hstep as <-.
      unfold remaining. rewrite Hpg. store.
      rewrite Hpg in Hpi. unfold TOTAL_TRIALS in *. lia.
    + rewrite (Hno eq_refl) in Hstep. now injection Hstep as <-.
  - destruct Hcase as (Hpg & _).
    destruct (pump_step w HI Hpg)
      as (w1 & _ & E & _ & _ & _ & _ & Hct & Hmx & Hpu & _ & Hbr).
    rewrite E in Hstep. injection Hstep as <-.
    rewrite Hpg in Hpi. destruct Hpi as [(? & (c & _ & ?) & _) ?].
    pose proof (MAX_PUMPS_MAP_range c) as Hc.
    assert (Hpg' : page (session w1) = p_game \/
                   page (session w1) = p_explosion).
    { destruct (pumps (session w) + 1 >=? max_pumps_this_trial (session w));
        [right; apply Hbr|].
      destruct Hbr as [_ ->]. destruct (PrimFloat.ltb _ _); auto. }
    unfold remaining. rewrite Hpg.
    destruct Hpg' as [-> | ->]; unfold TOTAL_TRIALS in *; lia.
  - destruct Hcase as (Hpg & row & F & _).
    destruct F as (_ & _ & Hct & Hpu & _ & Hpg' & _).
    rewrite Hpg in Hpi. destruct Hpi as [(? & (c & _ & ?) & _) ?].
    pose proof (MAX_PUMPS_MAP_range c) as Hc.
    unfold remaining. rewrite Hpg, Hpg'.
    destruct (current_trial (session w) + 1 >? TOTAL_TRIALS);
      unfold TOTAL_TRIALS in *; lia.
  - destruct Hcase as (Hpg & row & F & _).
    destruct F as (_ & _ & Hct & Hpu & _ & Hpg' & _).
    rewrite Hpg in Hpi. destruct Hpi as [(? & _) ?].
    unfold remaining. rewrite Hpg, Hpg'.
    destruct (current_trial (session w) + 1 >? TOTAL_TRIALS);
      unfold TOTAL_TRIALS in *; lia.
Qed.

(** A run of effective actions costs at least one unit of [remaining] an
    action. *)
Lemma play_remaining (evs : list Event) :
  forall w w' : World,
    reachable w ->
    play evs w = Some w' ->
    forallb effective evs = true ->
    remaining (session w') + Z.of_nat (List.length evs)
    <= remaining (session w).
Proof.
  induction evs as [|ev evs IH]; intros w w' Hr Hplay Heff.
  - cbn [play] in Hplay. injection Hplay as <-. cbn. lia.
  - cbn [play] in Hplay. cbn [forallb] in Heff.
    apply andb_true_iff in Heff as [He Heff].
    destruct (offered ev (session w)) eqn:Hoff; [|discriminate].
    destruct (interact ev w) as [w1| |] eqn:E; try discriminate.
    pose proof (step_remaining w w1 ev Hr Hoff E) as Hs. rewrite He in Hs.
    pose proof (IH w1 w' (reach_step w w1 ev Hr Hoff E) Hplay Heff) as Hi.
    cbn [List.length]. lia.
Qed.

(** While a session is not complete, some effective action is on the screen
    and is handled. *)
Lemma some_action_is_possible (w : World) :
  reachable w ->
  page (session w) <> p_end ->
  exists (ev : Event) (w' : World),
    effective ev = true /\ offered ev (session w) = true /\
    interact ev w = Ok w'.
Proof.
  intros Hr Hpg. pose proof (reachable_inv w Hr) as HI.
  pose proof (inv_page _ HI) as Hpi. unfold page_inv in Hpi.
  assert (Hgo : forall ev, effective ev = true ->
                           offered ev (session w) = true ->
                           exists (ev : Event) (w' : World),
                             effective ev = true /\
                             offered ev (session w) = true /\
                             interact ev w = Ok w').
  { intros ev He Hoff. destruct (interact_inv w ev HI Hoff) as (w' & E & _).
    exists ev, w'. auto. }
  destruct (page (session w)) eqn:Hp; try contradiction; try congruence.
  - apply (Hgo (Submit "a" "Other" "b")); [reflexivity|].
    unfold offered. rewrite Hp. reflexivity.
  - apply (Hgo ClickPump); [reflexivity|]. unfold offered. now rewrite Hp.
  - apply (Hgo ClickContinue); [reflexivity|]. unfold offered. now rewrite Hp.
Qed.

(** A session cannot go on for ever, and cannot get stuck before its end.
    [remaining] is never negative and at most 463.  Every action handled in
    a session strictly lowers it, except an identity form that [start_page]
    refuses, which leaves the store exactly as it was; so a run of [n]
    effective actions lowers it by at least [n], and no session has more
    than 463 of them.  It is 0 exactly on the end page, where no widget of
    the session is left; on every other page some effective action is on
    the screen and is handled. *)
Theorem every_action_lowers_remaining (w : World) :
  reachable w ->
  0 <= remaining (session w) <= 463 /\
  (page (session w) = p_end <-> remaining (session w) = 0) /\
  (forall (ev : Event) (w' : World),
      offered ev (session w) = true ->
      interact ev w = Ok w' ->
      (effective ev = true ->
       0 <= remaining (session w') < remaining (session w)) /\
      (effective ev = false ->
       (exists name dept gid : string,
           ev = Submit name dept gid /\ form_valid name dept gid = false) /\
       w' = w)) /\
  (forall (evs : list Event) (w' : World),
      play evs w = Some w' ->
      forallb effective evs = true ->
      remaining (session w') + Z.of_nat (List.length evs)
      <= remaining (session w) /\
      Z.of_nat (List.length evs) <= 463) /\
  (page (session w) = p_end ->
   forall ev : Event, offered ev (session w) = false) /\
  (page (session w) <> p_end ->
   exists (ev : Event) (w' : World),
     effective ev = true /\ offered ev (session w) = true /\
     interact ev w = Ok w').
Proof.
  intros Hr. pose proof (reachable_inv w Hr) as HI.
  destruct (remaining_range _ HI) as [Hrange Hend].
  split; [exact Hrange|]. split; [exact Hend|].
  split; [|split; [|split]].
  - intros ev w' Hoff Hstep.
    pose proof (step_remaining w w' ev Hr Hoff Hstep) as Hs.
    pose proof (reachable_inv w' (reach_step w w' ev Hr Hoff Hstep)) as HI'.
    destruct (remaining_range _ HI') as [Hrange' _].
    split; intros He; rewrite He in Hs.
    + lia.
    + split; [|exact Hs].
      destruct ev as [name dept gid | | |]; try discriminate He.
      exists name, dept, gid. split; [reflexivity | exact He].
  - intros evs w' Hplay Heff.
    pose proof (play_remaining evs w w' Hr Hplay Heff) as Hp.
    pose proof (reachable_inv w' (play_reachable evs w w' Hr Hplay)) as HI'.
    destruct (remaining_range _ HI') as [Hrange' _]. lia.
  - intros Hpg ev. unfold offered. rewrite Hpg. destruct ev; reflexivity.
  - apply some_action_is_possible, Hr.
Qed.

Lemma every_action_lowers_remaining_witness :
  remaining (session yellow_burst_continued) < remaining (session yellow_burst).
Proof.
  destruct (every_action_lowers_remaining yellow_burst)
    as (_ & _ & Hstep & _).
  - apply world_after_reachable.
  - destruct (Hstep ClickContinue yellow_burst_continued) as [H _].
    + vm_compute. reflexivity.
    + vm_compute. reflexivity.
    + apply H. reflexivity.
Defined.

(** ** The score *)

Lemma row_money_range (sq : list Color) (r : TrialRow.t) :
  row_ok sq r ->
  0 <= TrialRow.money_earned r <= 315 /\
  1 <= TrialRow.pumps r /\
  TrialRow.money_earned r
  = POINTS_PER_PUMP
    * (if TrialRow.exploded r =? 0 then TrialRow.pumps r else 0).
Proof.
  intros [_ H]. pose proof (MAX_PUMPS_MAP_range (TrialRow.balloon_color r)).
  unfold POINTS_PER_PUMP in *.
  destruct H as [(E1 & E2 & E3) | (E1 & E2 & E3)]; rewrite E1; cbn [Z.eqb]; lia.
Qed.

Lemma sum_money_range (sq : list Color) (rows : list TrialRow.t) :
  Forall (row_ok sq) rows ->
  0 <= sum_money rows <= 315 * Z.of_nat (List.length rows) /\
  sum_money rows = POINTS_PER_PUMP * collected_pumps rows.
Proof.
  induction 1 as [|r rows Hr _ IH].
  - simpl. unfold POINTS_PER_PUMP. lia.
  - destruct (row_money_range sq r Hr) as (H1 & _ & H3).
    cbn [sum_money collected_pumps fold_right List.length].
    change (fold_right (fun r0 acc => TrialRow.money_earned r0 + acc) 0 rows)
      with (sum_money rows).
    change (fold_right
              (fun r0 acc =>
                 (if TrialRow.exploded r0 =? 0 then TrialRow.pumps r0 else 0)
                 + acc) 0 rows)
      with (collected_pumps rows).
    unfold POINTS_PER_PUMP in *. lia.
Qed.

(** In a session the total score is the sum of the [money_earned] column,
    which is [POINTS_PER_PUMP] times the pumps of the collected rows; it is
    never negative, at most 315 per finalized trial and so at most 2205; the
    temporary score is [POINTS_PER_PUMP] times the pump count and at most
    320; and no action of the session lowers the total. *)
Theorem total_score_bounds (w : World) :
  reachable w ->
  total_score (session w) = sum_money (trial_data (session w)) /\
  total_score (session w)
  = POINTS_PER_PUMP * collected_pumps (trial_data (session w)) /\
  0 <= total_score (session w)
    <= 315 * Z.of_nat (List.length (trial_data (session w))) /\
  total_score (session w) <= 2205 /\
  (page (session w) = p_game \/ page (session w) = p_explosion ->
   temp_score (session w) = POINTS_PER_PUMP * pumps (session w) /\
   0 <= temp_score (session w) <= 320) /\
  (forall (ev : Event) (w' : World),
      offered ev (session w) = true ->
      interact ev w = Ok w' ->
      total_score (session w) <= total_score (session w')).
Proof.
  intros Hr. pose proof (reachable_inv w Hr) as HI.
  pose proof (inv_total _ HI) as Htot.
  destruct (sum_money_range _ _ (inv_rows _ HI)) as [Hrange Hcol].
  pose proof (inv_log_len _ HI) as Hlen.
  pose proof (inv_page _ HI) as Hpi. unfold page_inv, trial_on in Hpi.
  assert (Hct : current_trial (session w) <= 8).
  { unfold TOTAL_TRIALS in *.
    destruct (page (session w)); try contradiction; lia. }
  assert (Htmp : page (session w) = p_game \/ page (session w) = p_explosion ->
                 temp_score (session w) = POINTS_PER_PUMP * pumps (session w) /\
                 0 <= temp_score (session w) <= 320).
  { intros [Hpg | Hpg]; rewrite Hpg in Hpi;
      destruct Hpi as [(_ & (c & _ & Hmx) & Ht & _) Hpu];
      pose proof (MAX_PUMPS_MAP_range c); unfold POINTS_PER_PUMP in *; lia. }
  repeat split; try lia; try (apply Htmp; assumption).
  intros ev w' Hoff Hstep.
  destruct (step_cases w w' ev HI Hoff Hstep) as (_ & _ & Hcase).
  destruct ev.
  - destruct Hcase as (_ & _ & -> & _). lia.
  - destruct Hcase as (_ & _ & -> & _). lia.
  - destruct Hcase as (Hpg & row & _ & _ & _ & ->).
    destruct (Htmp (or_introl Hpg)). lia.
  - destruct Hcase as (_ & row & _ & _ & _ & ->). lia.
Qed.

Lemma total_score_bounds_witness :
  total_score (session blue_session) = 35 /\
  collected_pumps (trial_data (session blue_session)) = 7.
Proof.
  destruct (total_score_bounds blue_session) as (_ & H & _).
  - apply world_after_reachable.
  - assert (E : collected_pumps (trial_data (session blue_session)) = 7)
      by (vm_compute; reflexivity).
    split; [rewrite H, E; reflexivity | exact E].
Defined.

(** ** The log at any moment *)

(** At every moment of a session the log holds the rows of trials
    [1 .. current_trial - 1], in this order; every row has at least one pump
    (collect is disabled at zero pumps, and an explosion needs a pump) and an
    [exploded] flag that is 0 or 1; and the last row's
    [total_money_after_trial] is the current total score. *)
Theorem log_is_a_prefix_of_the_session (w : World) :
  reachable w ->
  map TrialRow.trial_number (trial_data (session w))
  = map Z.of_nat (seq 1 (Z.to_nat (current_trial (session w) - 1))) /\
  Forall (fun row =>
            1 <= TrialRow.pumps row /\
            (TrialRow.exploded row = 0 \/ TrialRow.exploded row = 1))
         (trial_data (session w)) /\
  (forall row,
      nth_error (trial_data (session w))
        (Nat.pred (List.length (trial_data (session w)))) = Some row ->
      TrialRow.total_money_after_trial row = total_score (session w)).
Proof.
  intros Hr. pose proof (reachable_inv w Hr) as HI.
  pose proof (inv_log_wf _ HI) as Hwf.
  pose proof (inv_log_len _ HI) as Hlen.
  split; [|split].
  - rewrite (log_wf_numbers _ _ _ Hwf).
    replace (Z.to_nat (current_trial (session w) - 1))
      with (List.length (trial_data (session w))) by lia.
    rewrite <- seq_shift, map_map. apply map_ext. intros i. lia.
  - apply Forall_impl with (2 := inv_rows _ HI).
    intros row [_ [(E1 & _ & E3) | (E1 & _ & E3)]]; split; auto; lia.
  - intros row Hrow.
    destruct (log_wf_nth _ _ _ _ _ Hwf Hrow) as [_ E].
    rewrite E, (inv_total _ HI). rewrite firstn_all2; [lia|].
    destruct (trial_data (session w)); simpl; lia.
Qed.

Lemma log_is_a_prefix_of_the_session_witness :
  map TrialRow.trial_number (trial_data (session yellow_burst_continued)) = [1].
Proof.
  destruct (log_is_a_prefix_of_the_session yellow_burst_continued) as (H & _).
  - apply world_after_reachable.
  - rewrite H. vm_compute. reflexivity.
Defined.

(** ** Sanitizing the game identifier *)

Lemma space_is_whitespace (c : ascii) :
  py_isspace c = false -> Ascii.eqb c " " = false.
Proof.
  intros H. destruct (Ascii.eqb_spec c " "%char) as [->|]; [|reflexivity].
  discriminate H.
Qed.

Lemma lstrip_no_leading (s : string) : starts_with_space (lstrip s) = false.
Proof.
  induction s as [|c s IH]; [reflexivity|]. cbn [lstrip].
  destruct (py_isspace c) eqn:E; [exact IH|]. cbn [starts_with_space]. exact E.
Qed.

Lemma rstrip_no_trailing (s : string) : ends_with_space (rstrip s) = false.
Proof.
  induction s as [|c s IH]; [reflexivity|]. cbn [rstrip].
  destruct (rstrip s) as [|c' r].
  - destruct (py_isspace c) eqn:E; [reflexivity|]. cbn [ends_with_space].
    exact E.
  - exact IH.
Qed.

Lemma rstrip_keeps_start (s : string) :
  starts_with_space s = false -> starts_with_space (rstrip s) = false.
Proof.
  destruct s as [|c s]; [reflexivity|]. cbn [starts_with_space rstrip].
  intros E. destruct (rstrip s); [rewrite E|]; cbn [starts_with_space]; exact E.
Qed.

Lemma replace_keeps_start (s : string) :
  starts_with_space s = false ->
  starts_with_space (replace " " "_" s) = false.
Proof.
  destruct s as [|c s]; [reflexivity|]. cbn [starts_with_space replace].
  intros E. now rewrite (space_is_whitespace c E).
Qed.

Lemma replace_keeps_end (s : string) :
  ends_with_space s = false -> ends_with_space (replace " " "_" s) = false.
Proof.
  induction s as [|c s IH]; [reflexivity|].
  destruct s as [|c' s'].
  - cbn [ends_with_space replace]. intros E.
    now rewrite (space_is_whitespace c E).
  - intros E. specialize (IH E). exact IH.
Qed.

Lemma lstrip_fixed (s : string) : starts_with_space s = false -> lstrip s = s.
Proof.
  destruct s as [|c s]; [reflexivity|]. cbn [starts_with_space lstrip].
  now intros ->.
Qed.

Lemma rstrip_fixed (s : string) : ends_with_space s = false -> rstrip s = s.
Proof.
  induction s as [|c s IH]; [reflexivity|].
  destruct s as [|c' s'].
  - cbn [ends_with_space rstrip]. now intros ->.
  - intros E. specialize (IH E). cbn [rstrip] in *. now rewrite IH.
Qed.

Lemma replace_twice (s : string) :
  replace " " "_" (replace " " "_" s) = replace " " "_" s.
Proof.
  induction s as [|c s IH]; [reflexivity|]. cbn [replace]. rewrite IH.
  destruct (Ascii.eqb_spec c " "%char) as [->|Hne]; [reflexivity|].
  destruct (Ascii.eqb_spec c " "%char); [contradiction | reflexivity].
Qed.

Lemma replace_length (s : string) :
  String.length (replace " " "_" s) = String.length s.
Proof. induction s as [|c s IH]; [reflexivity|]. cbn. now rewrite IH. Qed.

Lemma lstrip_length (s : string) :
  (String.length (lstrip s) <= String.length s)%nat.
Proof.
  induction s as [|c s IH]; [apply Nat.le_refl|]. cbn [lstrip].
  destruct (py_isspace c); cbn [String.length]; lia.
Qed.

Lemma rstrip_length (s : string) :
  (String.length (rstrip s) <= String.length s)%nat.
Proof.
  induction s as [|c s IH]; [apply Nat.le_refl|]. cbn [rstrip].
  destruct (rstrip s); [destruct (py_isspace c)|]; cbn [String.length] in *; lia.
Qed.

Lemma lstrip_empty_iff (s : string) :
  lstrip s = EmptyString <-> all_whitespace s = true.
Proof.
  unfold all_whitespace. induction s as [|c s IH]; [split; reflexivity|].
  cbn [lstrip list_ascii_of_string forallb].
  destruct (py_isspace c); cbn [andb]; [exact IH|].
  split; discriminate.
Qed.

Lemma rstrip_empty_iff (s : string) :
  starts_with_space s = false ->
  (rstrip s = EmptyString <-> s = EmptyString).
Proof.
  destruct s as [|c s]; [intros _; split; reflexivity|].
  cbn [starts_with_space rstrip]. intros E.
  destruct (rstrip s); [rewrite E|]; split; discriminate.
Qed.

Lemma replace_empty_iff (s : string) :
  replace " " "_" s = EmptyString <-> s = EmptyString.
Proof. destruct s; cbn [replace]; split; (reflexivity || discriminate). Qed.

Lemma no_whitespace_ends (s : string) :
  has_whitespace s = false ->
  starts_with_space s = false /\ ends_with_space s = false /\
  replace " " "_" s = s.
Proof.
  unfold has_whitespace. induction s as [|c s IH]; [repeat split|].
  cbn [list_ascii_of_string existsb]. intros H.
  apply orb_false_iff in H as [Hc Hs]. destruct (IH Hs) as (_ & He & Hr).
  split; [exact Hc|]. split.
  - destruct s; [exact Hc | exact He].
  - cbn [replace]. now rewrite Hr, (space_is_whitespace c Hc).
Qed.

(** The ends of the stored identifier. *)
Lemma sanitize_game_id_ends (gid : string) :
  starts_with_space (sanitize_game_id gid) = false /\
  ends_with_space (sanitize_game_id gid) = false /\
  existsb (Ascii.eqb " "%char) (list_ascii_of_string (sanitize_game_id gid))
  = false.
Proof.
  unfold sanitize_game_id, strip. split; [|split].
  - apply replace_keeps_start, rstrip_keeps_start, lstrip_no_leading.
  - apply replace_keeps_end, rstrip_no_trailing.
  - apply sanitize_game_id_no_space.
Qed.

(** The stored identifier never begins or ends with whitespace and contains
    no space character, whatever was typed. *)
Theorem sanitize_game_id_trimmed (gid : string) :
  starts_with_space (sanitize_game_id gid) = false /\
  ends_with_space (sanitize_game_id gid) = false /\
  existsb (Ascii.eqb " "%char) (list_ascii_of_string (sanitize_game_id gid))
  = false.
Proof. exact (sanitize_game_id_ends gid). Qed.

(** Sanitizing is idempotent, never lengthens the identifier, and leaves an
    identifier without whitespace exactly as it was typed. *)
Theorem sanitize_game_id_idempotent (gid : string) :
  sanitize_game_id (sanitize_game_id gid) = sanitize_game_id gid /\
  (String.length (sanitize_game_id gid) <= String.length gid)%nat /\
  (has_whitespace gid = false -> sanitize_game_id gid = gid).
Proof.
  split; [|split].
  - destruct (sanitize_game_id_ends gid) as (Hs & He & _).
    unfold sanitize_game_id at 1. unfold strip.
    rewrite (lstrip_fixed _ Hs), (rstrip_fixed _ He).
    unfold sanitize_game_id. apply replace_twice.
  - unfold sanitize_game_id, strip. rewrite replace_length.
    pose proof (rstrip_length (lstrip gid)). pose proof (lstrip_length gid).
    lia.
  - intros H. destruct (no_whitespace_ends gid H) as (Hs & He & Hr).
    unfold sanitize_game_id, strip.
    now rewrite (lstrip_fixed _ Hs), (rstrip_fixed _ He).
Qed.

(** The stored identifier is empty exactly when the typed one consists of
    whitespace only. *)
Lemma sanitize_game_id_empty_iff (gid : string) :
  sanitize_game_id gid = EmptyString <-> all_whitespace gid = true.
Proof.
  unfold sanitize_game_id, strip.
  rewrite replace_empty_iff, (rstrip_empty_iff _ (lstrip_no_leading gid)).
  apply lstrip_empty_iff.
Qed.

(** ** The identity form *)

(** On the start page of a session, the form is accepted exactly when the
    name and the identifier are not empty and the department is not the
    placeholder.  A refused form changes nothing.  An accepted form stores
    the name and the department as typed and the identifier sanitized,
    installs the ceiling of the first colour, opens trial 1 with no pump, and
    makes no draw. *)
Theorem identity_form_submission (w : World) (name dept gid : string) :
  reachable w ->
  page (session w) = p_start ->
  (form_valid name dept gid = true <->
   name <> EmptyString /\ dept <> "Select Department"%string /\
   gid <> EmptyString) /\
  (form_valid name dept gid = false ->
   interact (Submit name dept gid) w = Ok w) /\
  (form_valid name dept gid = true ->
   exists c w',
     py_index (balloon_colors_sequence (session w)) 0 = Some c /\
     interact (Submit name dept gid) w = Ok w' /\
     page (session w') = p_game /\
     identity (session w')
     = (Some name, Some dept, Some (sanitize_game_id gid)) /\
     max_pumps_this_trial (session w') = MAX_PUMPS_MAP c /\
     current_trial (session w') = 1 /\
     pumps (session w') = 0 /\
     trial_data (session w') = [] /\
     rng w' = rng w).
Proof.
  intros Hr Hpg. pose proof (reachable_inv w Hr) as HI.
  destruct (submit_closed w name dept gid HI Hpg) as [Hno Hyes].
  split; [|split; [exact Hno|]].
  - unfold form_valid. rewrite negb_true_iff, !orb_false_iff.
    rewrite !String.eqb_neq. tauto.
  - intros Hv. destruct (Hyes Hv) as (c & Hc & E).
    exists c. eexists. split; [exact Hc|]. split; [exact E|].
    pose proof (inv_page _ HI) as Hpi. unfold page_inv in Hpi.
    rewrite Hpg in Hpi. destruct Hpi as (Hct & Hpu & _).
    pose proof (inv_log_len _ HI) as Hlen. rewrite Hct in Hlen.
    unfold identity. store. repeat split; auto.
    destruct (trial_data (session w)); [reflexivity | simpl in Hlen; lia].
Qed.

Lemma identity_form_submission_witness :
  interact (Submit "Ann" "Select Department" "BAF 01") fresh_world
  = Ok fresh_world.
Proof.
  destruct (identity_form_submission fresh_world "Ann" "Select Department"
              "BAF 01") as (_ & H & _).
  - apply reach_init.
  - vm_compute. reflexivity.
  - apply H. vm_compute. reflexivity.
Defined.

(** An identifier made of whitespace only passes the form (it is not the
    empty string) and is stored as the empty string, so that the export file
    is named [BART_.csv]. *)
Theorem blank_game_id_is_stored_empty (w : World) (name dept gid : string) :
  reachable w ->
  page (session w) = p_start ->
  name <> EmptyString ->
  dept <> "Select Department"%string ->
  gid <> EmptyString ->
  all_whitespace gid = true ->
  exists w',
    interact (Submit name dept gid) w = Ok w' /\
    page (session w') = p_game /\
    game_id (session w') = Some EmptyString /\
    csv_filename EmptyString = "BART_.csv"%string.
Proof.
  intros Hr Hpg Hn Hd Hg Hws. pose proof (reachable_inv w Hr) as HI.
  destruct (submit_closed w name dept gid HI Hpg) as [_ Hyes].
  destruct Hyes as (c & _ & E).
  { unfold form_valid. rewrite negb_true_iff, !orb_false_iff.
    rewrite !String.eqb_neq. tauto. }
  eexists. split; [exact E|]. store.
  rewrite (proj2 (sanitize_game_id_empty_iff gid) Hws). repeat split.
Qed.

Lemma blank_game_id_is_stored_empty_witness :
  exists w',
    interact (Submit "Ann" "Economics" "   ") fresh_world = Ok w' /\
    game_id (session w') = Some EmptyString.
Proof.
  destruct (blank_game_id_is_stored_empty fresh_world "Ann" "Economics" "   ")
    as (w' & E & _ & Hg & _).
  - apply reach_init.
  - vm_compute. reflexivity.
  - discriminate.
  - discriminate.
  - discriminate.
  - vm_compute. reflexivity.
  - exists w'. auto.
Defined.

(** ** The identity columns *)

(** The store after an interaction is the one its handler left. *)
Lemma interact_handler (ev : Event) (w w' : World) :
  interact ev w = Ok w' ->
  handler ev w = Ok w' \/ handler ev w = Rerun w'.
Proof.
  unfold interact. destruct (handler ev w) as [w1 | e w1 | w1];
    try discriminate; cbn [script]; unfold main, game_page, explosion_page,
    end_page; intros H.
  - left. f_equal.
    destruct (page (session w1)) eqn:Hpg;
      try (destruct (py_index _ _)); try (destruct (game_id (session w1)));
      cbn [Page_eqb] in H; congruence.
  - right. f_equal.
    destruct (page (session w1)) eqn:Hpg;
      try (destruct (py_index _ _)); try (destruct (game_id (session w1)));
      cbn [Page_eqb] in H; congruence.
Qed.

(** The identity invariant of a session. *)
Lemma session_identity (w : World) :
  reachable w ->
  page (session w) <> p_start ->
  exists name dept raw : string,
    identity (session w)
    = (Some name, Some dept, Some (sanitize_game_id raw)) /\
    name <> EmptyString /\ dept <> "Select Department"%string /\
    raw <> EmptyString /\
    Forall (fun row =>
              TrialRow.participant_name row = name /\
              TrialRow.department row = dept /\
              TrialRow.game_id row = sanitize_game_id raw)
           (trial_data (session w)).
Proof.
  induction 1 as [g | w w' ev Hr IH Hoff Hstep]; intros Hpg'.
  - rewrite initialize_session in Hpg'. now elim Hpg'.
  - pose proof (reachable_inv w Hr) as HI.
    destruct (step_cases w w' ev HI Hoff Hstep) as (HI' & _ & Hcase).
    destruct ev as [name dept gid | | |].
    + destruct Hcase as (Hpg & _).
      destruct (submit_closed w name dept gid HI Hpg) as [Hno Hyes].
      destruct (form_valid name dept gid) eqn:Hv.
      * destruct (Hyes eq_refl) as (c & _ & E).
        rewrite E in Hstep. injection Hstep as <-.
        exists name, dept, gid. unfold identity. store.
        split; [reflexivity|].
        unfold form_valid in Hv. rewrite negb_true_iff, !orb_false_iff in Hv.
        rewrite !String.eqb_neq in Hv.
        repeat split; try tauto.
        pose proof (inv_page _ HI) as Hpi. unfold page_inv in Hpi.
        rewrite Hpg in Hpi. destruct Hpi as (Hct & _).
        pose proof (inv_log_len _ HI) as Hlen. rewrite Hct in Hlen.
        destruct (trial_data (session w)); [constructor | simpl in Hlen; lia].
      * rewrite (Hno eq_refl) in Hstep. injection Hstep as <-.
        now elim Hpg'.
    + destruct Hcase as (Hpg & Htd & _).
      destruct IH as (name & dept & raw & Hid & Hn & Hd & Hraw & Hrows);
        [congruence|].
      exists name, dept, raw. rewrite Htd.
      repeat split; auto.
      pose proof (inv_page _ HI) as Hpi. unfold page_inv in Hpi.
      rewrite Hpg in Hpi. destruct Hpi as [_ Hpu].
      destruct (handle_pump_returns w) as (w1 & E & _ & _ & _ & _ & _ & _ & _ & _
                                         & _ & Hid1); [lia|].
      destruct (interact_handler _ _ _ Hstep) as [E' | E'];
        cbn [handler] in E'; rewrite E in E'; [|discriminate].
      injection E' as <-. now rewrite Hid1.
    + destruct Hcase as (Hpg & _).
      destruct IH as (name & dept & raw & Hid & Hn & Hd & Hraw & Hrows);
        [congruence|].
      exists name, dept, raw.
      pose proof (inv_page _ HI) as Hpi. unfold page_inv, trial_on in Hpi.
      rewrite Hpg in Hpi. destruct Hpi as [(_ & (c & Hc & _) & _) _].
      unfold identity in Hid. injection Hid as Hn1 Hd1 Hg1.
      set (w1 := upd (fun s => set_total_score (total_score s + temp_score s) s)
                     w).
      destruct (next_trial_closed w1 c name dept (sanitize_game_id raw))
        as (w2 & E & _ & Htd & _ & _ & _ & _ & _ & Hid2 & _);
        try (subst w1; destruct w as [[]]; store; auto; fail).
      { subst w1. destruct w as [[]]. store. apply (inv_seq_len _ HI). }
      destruct (interact_handler _ _ _ Hstep) as [E' | E'];
        cbn [handler] in E'; unfold handle_collect in E'; fold w1 in E';
        rewrite E in E'; [|discriminate].
      injection E' as <-. rewrite Hid2, Htd.
      split; [subst w1; destruct w as [[]]; unfold identity; store;
              congruence|].
      repeat split; auto.
      apply Forall_app. split.
      * subst w1. destruct w as [[]]. store. exact Hrows.
      * constructor; [|constructor]. store. auto.
    + destruct Hcase as (Hpg & _).
      destruct IH as (name & dept & raw & Hid & Hn & Hd & Hraw & Hrows);
        [congruence|].
      exists name, dept, raw.
      pose proof (inv_page _ HI) as Hpi. unfold page_inv, trial_on in Hpi.
      rewrite Hpg in Hpi. destruct Hpi as [(_ & (c & Hc & _) & _) _].
      pose proof Hid as Hid0.
      unfold identity in Hid. injection Hid as Hn1 Hd1 Hg1.
      destruct (next_trial_closed w c name dept (sanitize_game_id raw))
        as (w2 & E & _ & Htd & _ & _ & _ & _ & _ & Hid2 & _); auto.
      { apply (inv_seq_len _ HI). }
      destruct (interact_handler _ _ _ Hstep) as [E' | E'];
        cbn [handler] in E'; rewrite E in E'; [|discriminate].
      injection E' as <-. rewrite Hid2, Htd.
      split; [exact Hid0|]. repeat split; auto.
      apply Forall_app. split; [exact Hrows|].
      constructor; [|constructor]. store. auto.
Qed.

(** After the identity form has been accepted, the identity of a session is
    fixed: the name is not empty, the identifier is a sanitized one, no later
    action changes the three keys, and every row of the log carries them in
    its first three columns. *)
Theorem rows_carry_the_identity (w : World) :
  reachable w ->
  page (session w) <> p_start ->
  exists name dept raw : string,
    identity (session w)
    = (Some name, Some dept, Some (sanitize_game_id raw)) /\
    name <> EmptyString /\ dept <> "Select Department"%string /\
    raw <> EmptyString /\
    Forall (fun row =>
              TrialRow.participant_name row = name /\
              TrialRow.department row = dept /\
              TrialRow.game_id row = sanitize_game_id raw)
           (trial_data (session w)).
Proof. exact (session_identity w). Qed.

Lemma rows_carry_the_identity_witness :
  map TrialRow.game_id (trial_data (session yellow_burst_continued))
  = ["BAF_01"%string].
Proof.
  destruct (rows_carry_the_identity yellow_burst_continued)
    as (name & dept & raw & Hid & _ & _ & _ & Hrows).
  - apply world_after_reachable.
  - vm_compute. discriminate.
  - vm_compute. reflexivity.
Defined.

(** ** The export file *)

Lemma no_space_append (a b : string) :
  existsb (Ascii.eqb " "%char) (list_ascii_of_string (a ++ b))
  = existsb (Ascii.eqb " "%char) (list_ascii_of_string a)
    || existsb (Ascii.eqb " "%char) (list_ascii_of_string b).
Proof.
  induction a as [|c a IH]; [reflexivity|].
  cbn [append list_ascii_of_string existsb]. now rewrite IH, orb_assoc.
Qed.

(** On the end page of a session [end_page] finds every key it reads, and
    the export file is named [BART_<id>.csv] with the sanitized identifier of
    the form, a name without any space character. *)
Theorem export_file_name_has_no_space (w : World) :
  reachable w ->
  page (session w) = p_end ->
  exists raw : string,
    game_id (session w) = Some (sanitize_game_id raw) /\
    end_page w = Ok w /\
    existsb (Ascii.eqb " "%char)
      (list_ascii_of_string (csv_filename (sanitize_game_id raw))) = false.
Proof.
  intros Hr Hpg.
  destruct (session_identity w Hr) as (name & dept & raw & Hid & _);
    [congruence|].
  unfold identity in Hid. injection Hid as _ _ Hg.
  exists raw. split; [exact Hg|]. split.
  - unfold end_page. now rewrite Hg.
  - unfold csv_filename. rewrite !no_space_append, sanitize_game_id_no_space.
    reflexivity.
Qed.

Lemma export_file_name_has_no_space_witness :
  game_id (session blue_session) = Some "BAF_01"%string /\
  end_page blue_session = Ok blue_session.
Proof.
  destruct (export_file_name_has_no_space blue_session)
    as (raw & _ & E & _).
  - apply world_after_reachable.
  - vm_compute. reflexivity.
  - split; [vm_compute; reflexivity | exact E].
Defined.

(** ** Collecting a burst balloon *)

(** [handle_collect] carries no guard of its own: called on the explosion
    page of a session it banks the temporary score of the burst balloon
    (at least [POINTS_PER_PUMP]) and then logs the trial as exploded with
    [money_earned = 0], so that the total no longer equals the sum of the
    [money_earned] column.  Only the page, which does not draw the collect
    button there, prevents it. *)
Theorem collect_on_explosion_banks_lost_points (w : World) :
  reachable w ->
  page (session w) = p_explosion ->
  offered ClickCollect (session w) = false /\
  exists w' row,
    handle_collect w = Ok w' /\
    trial_data (session w') = trial_data (session w) ++ [row] /\
    TrialRow.exploded row = 1 /\
    TrialRow.money_earned row = 0 /\
    POINTS_PER_PUMP <= temp_score (session w) /\
    total_score (session w') = total_score (session w) + temp_score (session w) /\
    TrialRow.total_money_after_trial row = total_score (session w') /\
    total_score (session w') <> sum_money (trial_data (session w')).
Proof.
  intros Hr Hpg. pose proof (reachable_inv w Hr) as HI.
  split; [unfold offered; now rewrite Hpg|].
  pose proof (inv_page _ HI) as Hpi. unfold page_inv, trial_on in Hpi.
  rewrite Hpg in Hpi.
  destruct Hpi as [(_ & (c & Hc & _) & Htmp & Hn & Hd & Hg) Hpu].
  pose proof (inv_total _ HI) as Htot. pose proof (inv_seq_len _ HI) as Hlen.
  destruct w as [[pg td ts ct tmp pu sq mx pn dp gi bs] g]. store. subst pg.
  destruct pn as [name|]; [|congruence].
  destruct dp as [dept|]; [|congruence].
  destruct gi as [gid|]; [|congruence].
  destruct (next_trial_closed
              (mkWorld (mkSession p_explosion td (ts + tmp) ct tmp pu sq mx
                          (Some name) (Some dept) (Some gid) bs) g)
              c name dept gid)
    as (w' & E & _ & Htd & Hts & _); auto.
  unfold is_exploded in Htd. store.
  change (if 1 =? 0 then tmp else 0) with 0 in Htd.
  exists w'. eexists. split; [exact E|]. split; [exact Htd|]. store.
  unfold POINTS_PER_PUMP in *.
  repeat split; try lia.
  rewrite Hts, Htd, sum_money_app. store. lia.
Qed.

Lemma collect_on_explosion_banks_lost_points_witness :
  exists w',
    handle_collect yellow_burst = Ok w' /\
    total_score (session w') = 5 /\
    sum_money (trial_data (session w')) = 0.
Proof.
  destruct (collect_on_explosion_banks_lost_points yellow_burst)
    as (_ & w' & row & E & _).
  - apply world_after_reachable.
  - vm_compute. reflexivity.
  - exists w'. split; [exact E|].
    vm_compute in E. injection E as <-. split; reflexivity.
Defined.

(** ** The balloon graphic *)

(** The size written by [handle_pump] follows the pump count of the trial
    that is on. *)
Lemma balloon_size_follows_pumps (w : World) :
  reachable w ->
  page (session w) = p_game /\ 0 < pumps (session w) \/
  page (session w) = p_explosion ->
  balloon_size (session w) = Some (150 + pumps (session w) * 5).
Proof.
  induction 1 as [g | w w' ev Hr IH Hoff Hstep]; intros Hpre.
  - rewrite initialize_session in Hpre. cbn in Hpre.
    destruct Hpre as [[Hp _] | Hp]; discriminate Hp.
  - pose proof (reachable_inv w Hr) as HI.
    destruct (step_cases w w' ev HI Hoff Hstep) as (HI' & _ & Hcase).
    destruct ev as [name dept gid | | |].
    + destruct Hcase as (Hpg & _).
      destruct (submit_closed w name dept gid HI Hpg) as [Hno Hyes].
      pose proof (inv_page _ HI) as Hpi. unfold page_inv in Hpi.
      rewrite Hpg in Hpi. destruct Hpi as (_ & Hpu & _).
      destruct (form_valid name dept gid).
      * destruct (Hyes eq_refl) as (c & _ & E).
        rewrite E in Hstep. injection Hstep as <-. store.
        destruct Hpre as [[_ H0] | H0]; [lia | discriminate H0].
      * rewrite (Hno eq_refl) in Hstep. injection Hstep as <-.
        destruct Hpre as [[H0 _] | H0]; congruence.
    + destruct Hcase as (Hpg & _).
      pose proof (inv_page _ HI) as Hpi. unfold page_inv in Hpi.
      rewrite Hpg in Hpi. destruct Hpi as [_ Hpu].
      destruct (handle_pump_returns w) as (w1 & E & _ & _ & Hbs & _); [lia|].
      destruct (interact_handler _ _ _ Hstep) as [E' | E'];
        cbn [handler] in E'; rewrite E in E'; [|discriminate].
      injection E' as <-. exact Hbs.
    + destruct Hcase as (_ & row & F & _).
      destruct F as (_ & _ & _ & Hpu & _ & Hpg' & _).
      destruct Hpre as [[_ H0] | H0]; [lia|]. rewrite Hpg' in H0.
      destruct (_ >? _); discriminate H0.
    + destruct Hcase as (_ & row & F & _).
      destruct F as (_ & _ & _ & Hpu & _ & Hpg' & _).
      destruct Hpre as [[_ H0] | H0]; [lia|]. rewrite Hpg' in H0.
      destruct (_ >? _); discriminate H0.
Qed.

(** The balloon drawn for the trial that is on is between 150 and 350 pixels
    wide and grows by 5 pixels a pump up to 40 pumps, where it stops growing;
    yellow and orange balloons (ceilings 8 and 16) never reach that cap.  The
    size [handle_pump] stores is not capped: it is the drawn size exactly up
    to 40 pumps and larger beyond. *)
Theorem balloon_graphic_is_capped (w : World) :
  reachable w ->
  page (session w) = p_game /\ 0 < pumps (session w) \/
  page (session w) = p_explosion ->
  150 < balloon_ui_size (pumps (session w)) <= 350 /\
  (balloon_ui_size (pumps (session w)) = 150 + pumps (session w) * 5 <->
   pumps (session w) <= 40) /\
  (max_pumps_this_trial (session w) <= 16 ->
   balloon_ui_size (pumps (session w)) = 150 + pumps (session w) * 5) /\
  (exists stored,
      balloon_size (session w) = Some stored /\
      balloon_ui_size (pumps (session w)) = Z.min stored 350 /\
      (40 < pumps (session w) ->
       balloon_ui_size (pumps (session w)) < stored)).
Proof.
  intros Hr Hpre.
  pose proof (balloon_size_follows_pumps w Hr Hpre) as Hbs.
  pose proof (inv_page _ (reachable_inv w Hr)) as Hpi.
  unfold page_inv, trial_on in Hpi. unfold balloon_ui_size.
  assert (Hpu : 0 < pumps (session w)
                <= max_pumps_this_trial (session w)).
  { destruct Hpre as [[Hp H0] | Hp]; rewrite Hp in Hpi; lia. }
  repeat split; try lia.
  exists (150 + pumps (session w) * 5). repeat split; [exact Hbs | lia].
Qed.

Lemma balloon_graphic_is_capped_witness :
  balloon_ui_size (pumps (session blue_at_45)) = 350 /\
  balloon_size (session blue_at_45) = Some 375.
Proof.
  destruct (balloon_graphic_is_capped blue_at_45)
    as (_ & _ & _ & stored & Hs & Hm & _).
  - apply world_after_reachable.
  - left. vm_compute. split; reflexivity.
  - split; vm_compute; reflexivity.
Defined.

(** ** Starting over *)

(** The store [reset_game] leaves, field by field. *)
Lemma reset_game_fresh_fields (w : World) :
  page (session (reset_game w)) = p_start /\
  trial_data (session (reset_game w)) = [] /\
  total_score (session (reset_game w)) = 0 /\
  current_trial (session (reset_game w)) = 1 /\
  pumps (session (reset_game w)) = 0 /\
  temp_score (session (reset_game w)) = 0 /\
  max_pumps_this_trial (session (reset_game w)) = 0 /\
  identity (session (reset_game w)) = (None, None, None) /\
  balloon_size (session (reset_game w)) = None /\
  balloon_colors_sequence (session (reset_game w))
  = map (fun i =>
           nth (floor_index
                  (PrimFloat.mul (floats (rng w) (cursor (rng w) + i))
                     (float_of_Z 3)) 3)
               colors Yellow)
        (seq 0 (Z.to_nat TOTAL_TRIALS)) /\
  rng (reset_game w)
  = mkRNG (floats (rng w)) (cursor (rng w) + Z.to_nat TOTAL_TRIALS) /\
  reachable (reset_game w).
Proof.
  unfold reset_game. rewrite initialize_session. unfold identity. store.
  repeat split.
  - apply random_choices_picks.
  - unfold initialize.
    pose proof (random_choices_rng colors Yellow (Z.to_nat TOTAL_TRIALS)
                  (rng w)) as H.
    destruct (random_choices colors Yellow (Z.to_nat TOTAL_TRIALS) (rng w)).
    exact H.
  - apply reach_init.
Qed.

(** *** The deletion loop and the guards *)

Lemma Key_eqb_refl (k : Key) : Key_eqb k k = true.
Proof. destruct k; reflexivity. Qed.

Lemma fold_left_dict_del (ks : list Key) :
  forall d : Dict,
    fold_left (fun d' k => dict_del k d') ks d
    = filter (fun kv => negb (existsb (Key_eqb (fst kv)) ks)) d.
Proof.
  induction ks as [|k ks IH]; intros d; cbn [fold_left existsb].
  - induction d as [|kv d IHd]; [reflexivity|].
    cbn [filter negb]. f_equal. exact IHd.
  - rewrite IH. unfold dict_del.
    induction d as [|kv d IHd]; [reflexivity|]. cbn [filter].
    destruct (Key_eqb (fst kv) k); cbn [negb orb filter]; rewrite IHd;
      reflexivity.
Qed.

Lemma delete_all_keys_empty (d : Dict) : delete_all_keys d = [].
Proof.
  unfold delete_all_keys, dict_keys. rewrite fold_left_dict_del.
  assert (H : forall l : Dict,
             (forall kv, In kv l -> In (fst kv) (map fst d)) ->
             filter (fun kv => negb (existsb (Key_eqb (fst kv)) (map fst d))) l
             = []).
  { induction l as [|kv l IHl]; intros Hin; [reflexivity|]. cbn [filter].
    assert (E : existsb (Key_eqb (fst kv)) (map fst d) = true).
    { apply existsb_exists. exists (fst kv).
      split; [apply Hin; now left | apply Key_eqb_refl]. }
    rewrite E. cbn [negb]. apply IHl. intros kv' H'. apply Hin. now right. }
  apply H. intros kv Hkv. now apply in_map.
Qed.

Lemma dict_has_get (k : Key) (d : Dict) :
  dict_has k d = true <-> dict_get k d <> None.
Proof.
  unfold dict_has, dict_get. induction d as [|kv d IH]; cbn [existsb find].
  - split; [discriminate | intros H; now elim H].
  - destruct (Key_eqb (fst kv) k); cbn [orb option_map];
      [split; [discriminate | reflexivity] | exact IH].
Qed.

(** A guarded assignment leaves every key that is present as it is. *)
Lemma init_default_keeps (k k' : Key) (v : Value) (d : Dict) :
  dict_has k d = true ->
  dict_get k (init_default k' v d) = dict_get k d /\
  dict_has k (init_default k' v d) = true.
Proof.
  intros Hk. unfold init_default, dict_set.
  destruct (dict_has k' d) eqn:Hk'; [auto|].
  unfold dict_get, dict_has in *. split.
  - induction d as [|kv d IH]; [discriminate Hk|]. cbn [app find existsb] in *.
    destruct (Key_eqb (fst kv) k); [reflexivity|].
    cbn [orb] in Hk. apply orb_false_iff in Hk' as [_ Hk'']. auto.
  - rewrite existsb_app, Hk. reflexivity.
Qed.

Lemma dict_set_keeps (k k' : Key) (v : Value) (d : Dict) :
  dict_has k d = true ->
  dict_has k' d = false ->
  dict_get k (dict_set k' v d) = dict_get k d /\
  dict_has k (dict_set k' v d) = true.
Proof.
  intros Hk Hk'. unfold dict_set. rewrite Hk'.
  unfold dict_get, dict_has in *. split.
  - clear Hk'. induction d as [|kv d IH]; [discriminate Hk|].
    cbn [app find existsb] in *.
    destruct (Key_eqb (fst kv) k); [reflexivity|]. cbn [orb] in Hk. auto.
  - rewrite existsb_app, Hk. reflexivity.
Qed.

Lemma initialization_block_keeps (k : Key) (d : Dict) (g : RNG) :
  dict_has k d = true ->
  dict_get k (fst (initialization_block d g)) = dict_get k d.
Proof.
  intros H0. unfold initialization_block.
  destruct (init_default_keeps k k_page (V_page p_start) d H0) as [E1 H1].
  set (d1 := init_default k_page (V_page p_start) d) in *.
  destruct (init_default_keeps k k_trial_data (V_rows []) d1 H1) as [E2 H2].
  set (d2 := init_default k_trial_data (V_rows []) d1) in *.
  destruct (init_default_keeps k k_total_score (V_int 0) d2 H2) as [E3 H3].
  set (d3 := init_default k_total_score (V_int 0) d2) in *.
  destruct (init_default_keeps k k_current_trial (V_int 1) d3 H3) as [E4 H4].
  set (d4 := init_default k_current_trial (V_int 1) d3) in *.
  destruct (init_default_keeps k k_temp_score (V_int 0) d4 H4) as [E5 H5].
  set (d5 := init_default k_temp_score (V_int 0) d4) in *.
  destruct (init_default_keeps k k_pumps (V_int 0) d5 H5) as [E6 H6].
  set (d6 := init_default k_pumps (V_int 0) d5) in *.
  cbv zeta.
  destruct (dict_has k_balloon_colors_sequence d6) eqn:Hs.
  - cbn [fst].
    destruct (init_default_keeps k k_max_pumps_this_trial (V_int 0) d6 H6)
      as [E7 _].
    congruence.
  - destruct (random_choices colors Yellow (Z.to_nat TOTAL_TRIALS) g)
      as [sq g1]. cbn [fst].
    destruct (dict_set_keeps k k_balloon_colors_sequence (V_colors sq) d6 H6 Hs)
      as [E7 H7].
    destruct (init_default_keeps k k_max_pumps_this_trial (V_int 0) _ H7)
      as [E8 _].
    congruence.
Qed.

(** [reset_game] and the initialization block on the dictionary itself.
    The loop of [reset_game] deletes every key of any dictionary.  The
    guards of the initialization block never write under a key that is
    present, and make no draw when the colour sequence is present: on the
    dictionary of a store the block changes nothing, so running it at each
    run of the script is harmless.  On the empty dictionary the block
    builds the first store of a session.  Hence deleting every key of any
    store and running the block gives the store [reset_game] is modelled
    by: the start page, an empty log, no score, trial 1, no identity, no
    ceiling, and a colour sequence made by the next [TOTAL_TRIALS] numbers
    of the generator. *)
Theorem reset_game_deletes_then_initializes :
  (forall d : Dict, delete_all_keys d = []) /\
  (forall (k : Key) (d : Dict) (g : RNG),
      dict_has k d = true ->
      dict_get k (fst (initialization_block d g)) = dict_get k d) /\
  (forall (d : Dict) (g : RNG),
      dict_has k_balloon_colors_sequence d = true ->
      snd (initialization_block d g) = g) /\
  (forall s : SessionState, of_dict (to_dict s) = Some s) /\
  (forall (s : SessionState) (g : RNG),
      initialization_block (to_dict s) g = (to_dict s, g)) /\
  (forall g : RNG,
      of_dict (fst (initialization_block [] g)) = Some (session (initialize g)) /\
      snd (initialization_block [] g) = rng (initialize g)) /\
  (forall w : World,
      of_dict
        (fst (initialization_block (delete_all_keys (to_dict (session w)))
                (rng w)))
      = Some (session (reset_game w)) /\
      snd (initialization_block (delete_all_keys (to_dict (session w)))
             (rng w))
      = rng (reset_game w) /\
      page (session (reset_game w)) = p_start /\
      trial_data (session (reset_game w)) = [] /\
      total_score (session (reset_game w)) = 0 /\
      current_trial (session (reset_game w)) = 1 /\
      identity (session (reset_game w)) = (None, None, None) /\
      rng (reset_game w)
      = mkRNG (floats (rng w)) (cursor (rng w) + Z.to_nat TOTAL_TRIALS)).
Proof.
  assert (Hempty : forall g : RNG,
             of_dict (fst (initialization_block [] g))
             = Some (session (initialize g)) /\
             snd (initialization_block [] g) = rng (initialize g)).
  { intros g. unfold initialization_block, initialize.
    cbn [init_default dict_has existsb dict_set app fst Key_eqb orb].
    destruct (random_choices colors Yellow (Z.to_nat TOTAL_TRIALS) g)
      as [sq g1].
    split; reflexivity. }
  split; [exact delete_all_keys_empty|].
  split; [exact initialization_block_keeps|].
  split; [|split; [|split; [|split; [exact Hempty|]]]].
  - intros d g Hs. unfold initialization_block.
    assert (H6 : dict_has k_balloon_colors_sequence
                   (init_default k_pumps (V_int 0)
                      (init_default k_temp_score (V_int 0)
                         (init_default k_current_trial (V_int 1)
                            (init_default k_total_score (V_int 0)
                               (init_default k_trial_data (V_rows [])
                                  (init_default k_page (V_page p_start) d))))))
                 = true).
    { repeat apply init_default_keeps. exact Hs. }
    cbv zeta. rewrite H6. reflexivity.
  - intros [pg td ts ct tmp pu sq mx [pn|] [dp|] [gi|] [bs|]]; reflexivity.
  - intros [pg td ts ct tmp pu sq mx [pn|] [dp|] [gi|] [bs|]] g; reflexivity.
  - intros w. rewrite delete_all_keys_empty.
    destruct (Hempty (rng w)) as [E1 E2].
    destruct (reset_game_fresh_fields w)
      as (F1 & F2 & F3 & F4 & _ & _ & _ & F8 & _ & _ & F11 & _).
    unfold reset_game in *. repeat split; auto.
Qed.
